(** * Synthetic transaction generator ([big_data_pipeline.py])

    A shallow embedding of [generate_large_data]: the routine seeds numpy's
    global random state, draws the columns of a retail-transaction table,
    derives [TotalAmount] and [Profit], renders the dates and writes the
    frame as CSV.

    What is external to the script is kept external here:
    - numpy's random generator is an interface ([NumpyRandom]) whose laws
      are the documented contracts of [randint], [uniform] and [choice];
    - the text [to_csv] writes for a float64 is a parameter ([FloatRepr])
      known only to hold no comma, quote or line break.
    The calendar arithmetic of [datetime], the column store of a pandas
    [DataFrame], IEEE binary64 arithmetic and the CSV layout are modelled
    concretely.  Integers are unbounded: a record count that fits in
    memory keeps every int64 far from wrapping.  The messages printed on
    standard output are not modelled.

    [analyze_big_data] and the script's main block follow: Spark is an
    interface without laws ([SparkEngine]), the five queries are kept as
    the data the script passes to it, and the report writer, with Python's
    [str.replace], is modelled concretely. *)

From Stdlib Require Import ZArith List String Ascii Bool Lia.
From Stdlib Require Import Floats.SpecFloat.
From stdpp Require Import gmap strings list fin_maps pretty.

Local Open Scope Z_scope.

(** ** IEEE binary64 values, as numpy's float64 and Python's float *)

Module Float64.

Definition prec : Z := 53.
Definition emax : Z := 1024.

Definition float := spec_float.

Definition mul : float -> float -> float := SFmul prec emax.
Definition add : float -> float -> float := SFadd prec emax.
Definition sub : float -> float -> float := SFsub prec emax.
Definition ltb : float -> float -> bool := SFltb.
Definition leb : float -> float -> bool := SFleb.

Definition is_nan (x : float) : bool :=
  match x with S754_nan => true | _ => false end.

(** Conversion of an int64 to float64 (round to nearest even). *)
Definition of_int (z : Z) : float := binary_normalize prec emax z 0 false.

(** The literals of the script: the binary64 nearest to the decimal. *)
Definition f0   : float := S754_zero false.
Definition f0_1 : float := S754_finite false 7205759403792794 (-56).
Definition f0_4 : float := S754_finite false 7205759403792794 (-54).
Definition f0_5 : float := S754_finite false 4503599627370496 (-53).
Definition f5    : float := of_int 5.
Definition f25   : float := of_int 25.
Definition f1000 : float := of_int 1000.

(** Python's [max(a, b)]: the first argument is kept unless the second
    compares strictly greater; a NaN second argument is never greater. *)
Definition py_max (a b : float) : float := if ltb a b then b else a.

End Float64.

Abbreviation float := Float64.float.

(** ** Calendar dates: the date part of [datetime.datetime]

    [start_date] is a midnight and [timedelta(days=k)] adds whole days, so
    the time of day stays 00:00:00 and only the date is carried. *)

Module Datetime.

Record date := mkdate { year : Z; month : Z; day : Z }.

Definition MAXORDINAL : Z := 3652059.
Definition DI400Y : Z := 146097.
Definition DI100Y : Z := 36524.
Definition DI4Y : Z := 1461.

Definition DAYS_IN_MONTH : list Z :=
  [-1; 31; 28; 31; 30; 31; 30; 31; 31; 30; 31; 30; 31].
Definition DAYS_BEFORE_MONTH : list Z :=
  [-1; 0; 31; 59; 90; 120; 151; 181; 212; 243; 273; 304; 334].

Definition tab (t : list Z) (m : Z) : Z := nth (Z.to_nat m) t 0.

Definition is_leap (y : Z) : bool :=
  (y mod 4 =? 0) && (negb (y mod 100 =? 0) || (y mod 400 =? 0)).

Definition days_before_year (y : Z) : Z :=
  let y := y - 1 in y * 365 + y / 4 - y / 100 + y / 400.

Definition days_before_month (y m : Z) : Z :=
  tab DAYS_BEFORE_MONTH m + (if (2 <? m) && is_leap y then 1 else 0).

Definition days_in_month (y m : Z) : Z :=
  if (m =? 2) && is_leap y then 29 else tab DAYS_IN_MONTH m.

(** [date.toordinal]: 0001-01-01 is day 1. *)
Definition ymd2ord (d : date) : Z :=
  days_before_year (year d) + days_before_month (year d) (month d) + day d.

(** [date.fromordinal]. *)
Definition ord2ymd (n : Z) : date :=
  let n := n - 1 in
  let n400 := n / DI400Y in let n := n mod DI400Y in
  let y := n400 * 400 + 1 in
  let n100 := n / DI100Y in let n := n mod DI100Y in
  let n4 := n / DI4Y in let n := n mod DI4Y in
  let n1 := n / 365 in let n := n mod 365 in
  let y := y + n100 * 100 + n4 * 4 + n1 in
  if (n1 =? 4) || (n100 =? 4) then mkdate (y - 1) 12 31
  else
    let leapyear := (n1 =? 3) && (negb (n4 =? 24) || (n100 =? 3)) in
    let m := Z.shiftr (n + 50) 5 in
    let preceding :=
      tab DAYS_BEFORE_MONTH m + (if (2 <? m) && leapyear then 1 else 0) in
    if n <? preceding then
      let m := m - 1 in
      let preceding :=
        preceding
        - (tab DAYS_IN_MONTH m + (if (m =? 2) && leapyear then 1 else 0)) in
      mkdate y m (n - preceding + 1)
    else mkdate y m (n - preceding + 1).

(** [d + timedelta(days=k)]; [None] is Python's [OverflowError]. *)
Definition add_days (d : date) (k : Z) : option date :=
  let o := ymd2ord d + k in
  if (0 <? o) && (o <=? MAXORDINAL) then Some (ord2ymd o) else None.

Definition date_leb (a b : date) : bool :=
  (year a <? year b)
  || ((year a =? year b)
      && ((month a <? month b)
          || ((month a =? month b) && (day a <=? day b)))).

Definition digit (z : Z) : string :=
  String (ascii_of_nat (48 + Z.to_nat (z mod 10))) EmptyString.

Definition pad2 (z : Z) : string := digit (z / 10) +:+ digit z.
Definition pad4 (z : Z) : string :=
  digit (z / 1000) +:+ digit (z / 100) +:+ pad2 z.

(** [strftime('%Y-%m-%d')] for years 1..9999. *)
Definition strftime_ymd (d : date) : string :=
  pad4 (year d) +:+ "-" +:+ pad2 (month d) +:+ "-" +:+ pad2 (day d).

End Datetime.

Abbreviation date := Datetime.date.

(** ** Text helpers *)

Definition COMMA : ascii := ascii_of_nat 44.
Definition QUOTE : ascii := ascii_of_nat 34.
Definition LF : ascii := ascii_of_nat 10.
Definition CR : ascii := ascii_of_nat 13.

Definition str_of_Z (z : Z) : string := pretty z.

Fixpoint has_char (p : ascii -> bool) (s : string) : bool :=
  match s with
  | EmptyString => false
  | String c r => p c || has_char p r
  end.

Definition special (c : ascii) : bool :=
  Ascii.eqb c COMMA || Ascii.eqb c QUOTE || Ascii.eqb c LF || Ascii.eqb c CR.

(** ** Exceptions and the interfaces of the external libraries *)

Inductive exn := ValueError | KeyError | TypeError | AttributeError | OverflowError.

(** numpy's legacy global generator ([np.random.*]).  [np_seed] rebuilds the
    whole state from the seed.  The sized draws return an array of the
    requested length.  The laws are the ranges numpy documents: [randint]
    from [low] up to [high] excluded, [uniform] in the half-open interval
    from [low] to [high], [choice] among the entries of the population.
    Rejected arguments (a negative size, an empty range or population) are
    handled by the wrappers of the next section. *)
Class NumpyRandom := {
  rng_state : Type;
  np_seed : Z -> rng_state;
  np_randint : Z -> Z -> rng_state -> Z * rng_state;
  np_randint_n : Z -> Z -> nat -> rng_state -> list Z * rng_state;
  np_uniform_n : float -> float -> nat -> rng_state -> list float * rng_state;
  np_choice_n : list string -> nat -> rng_state -> list string * rng_state;
  np_randint_range : forall lo hi s,
    lo < hi -> lo <= (np_randint lo hi s).1 < hi;
  np_randint_n_length : forall lo hi n s,
    length (np_randint_n lo hi n s).1 = n;
  np_randint_n_range : forall lo hi n s,
    lo < hi -> Forall (fun x => lo <= x < hi) (np_randint_n lo hi n s).1;
  np_uniform_n_length : forall lo hi n s,
    length (np_uniform_n lo hi n s).1 = n;
  np_uniform_n_range : forall lo hi n s,
    Float64.ltb lo hi = true ->
    Forall (fun x => Float64.leb lo x = true /\ Float64.ltb x hi = true)
           (np_uniform_n lo hi n s).1;
  np_choice_n_length : forall pop n s,
    length (np_choice_n pop n s).1 = n;
  np_choice_n_elem : forall pop n s,
    pop <> [] -> Forall (fun x => x ∈ pop) (np_choice_n pop n s).1
}.

(** The text [to_csv] writes for a float64 that is not NaN ([repr]): digits,
    a sign, a point, an exponent mark or the words inf and nan, so never a
    comma, a quote or a line break. *)
Class FloatRepr := {
  float_repr : float -> string;
  float_repr_plain : forall x, has_char special (float_repr x) = false
}.

(** ** CSV text *)

Fixpoint double_quotes (s : string) : string :=
  match s with
  | EmptyString => EmptyString
  | String c r =>
      if Ascii.eqb c QUOTE then String c (String c (double_quotes r))
      else String c (double_quotes r)
  end.

(** Minimal quoting of the csv writer: a field is quoted only when it holds
    the delimiter, the quote character or a line break. *)
Definition csv_field (s : string) : string :=
  if has_char special s
  then String QUOTE (double_quotes s +:+ String QUOTE EmptyString)
  else s.

Definition csv_line (fields : list string) : string :=
  String.concat (String COMMA EmptyString) fields.

(** Every line is ended by the line terminator, a line feed ([os.linesep]
    where the script is run). *)
Fixpoint unlines (ls : list string) : string :=
  match ls with
  | [] => EmptyString
  | l :: r => l +:+ String LF (unlines r)
  end.

Fixpoint count_char (c : ascii) (s : string) : nat :=
  match s with
  | EmptyString => O
  | String c' r => (if Ascii.eqb c' c then 1 else 0) + count_char c r
  end.

(** The number of lines of a text: its line feeds. *)
Definition line_count (text : string) : nat := count_char LF text.

(** ** numpy arrays and pandas frames *)

Definition wrap64 (z : Z) : Z := (z + 2 ^ 63) mod 2 ^ 64 - 2 ^ 63.

(** [np.arange(lo, hi)] and [range(n)]. *)
Definition arange (lo hi : Z) : list Z :=
  map (fun i => lo + Z.of_nat i) (seq 0 (Z.to_nat (hi - lo))).

Definition py_range (n : Z) : list Z := arange 0 n.

Inductive column :=
| IntCol (xs : list Z)
| FloatCol (xs : list float)
| StrCol (xs : list string)
| DateCol (xs : list date).

Definition col_len (c : column) : nat :=
  match c with
  | IntCol xs => length xs
  | FloatCol xs => length xs
  | StrCol xs => length xs
  | DateCol xs => length xs
  end.

(** A frame keeps its columns in insertion order. *)
Abbreviation frame := (list (string * column)).

Definition nrows (df : frame) : nat :=
  match df with
  | [] => O
  | (_, c) :: _ => col_len c
  end.

Fixpoint frame_get (df : frame) (name : string) : option column :=
  match df with
  | [] => None
  | (k, c) :: r => if String.eqb k name then Some c else frame_get r name
  end.

(** [df[name] = c]: an existing column is replaced where it stands, a new
    one is appended. *)
Fixpoint frame_set (df : frame) (name : string) (c : column) : frame :=
  match df with
  | [] => [(name, c)]
  | (k, v) :: r =>
      if String.eqb k name then (k, c) :: r else (k, v) :: frame_set r name c
  end.

Definition columns (df : frame) : list string := map fst df.

Definition as_floats (c : column) : option (list float) :=
  match c with
  | IntCol xs => Some (map Float64.of_int xs)
  | FloatCol xs => Some xs
  | _ => None
  end.

Section Csv.
Context `{FR : FloatRepr}.

Definition render_float (x : float) : string :=
  if Float64.is_nan x then EmptyString else float_repr x.

Definition render_col (c : column) : list string :=
  match c with
  | IntCol xs => map (fun x => csv_field (str_of_Z x)) xs
  | FloatCol xs => map (fun x => csv_field (render_float x)) xs
  | StrCol xs => map csv_field xs
  | DateCol xs => map (fun d => csv_field (Datetime.strftime_ymd d)) xs
  end.

Definition csv_header (df : frame) : string :=
  csv_line (map csv_field (columns df)).

Definition csv_row (df : frame) (i : nat) : string :=
  csv_line (map (fun kc => nth i (render_col kc.2) EmptyString) df).

(** [df.to_csv(..., index=False)]: the header, then the rows in order. *)
Definition csv_lines (df : frame) : list string :=
  csv_header df :: map (csv_row df) (seq 0 (nrows df)).

Definition csv_text (df : frame) : string := unlines (csv_lines df).
End Csv.

(** ** The script's effects: numpy's global state and the files on disk *)

Section Program.
Context `{NR : NumpyRandom} `{FR : FloatRepr}.

Record world := mkworld {
  np_state : rng_state;
  files : gmap string string
}.

(** State and exceptions: a raised exception keeps the world reached. *)
Definition M (A : Type) : Type := world -> (exn + A) * world.

Definition ret {A} (a : A) : M A := fun w => (inr a, w).
Definition raise {A} (e : exn) : M A := fun w => (inl e, w).
Definition bind {A B} (m : M A) (k : A -> M B) : M B :=
  fun w =>
    match m w with
    | (inl e, w') => (inl e, w')
    | (inr a, w') => k a w'
    end.

Notation "'let!' x ':=' c1 'in' c2" := (bind c1 (fun x => c2))
  (at level 10, x name, c1 at level 100, c2 at level 200).

Fixpoint for_each {A B} (body : A -> M B) (xs : list A) : M (list B) :=
  match xs with
  | [] => ret []
  | x :: r =>
      let! y := body x in
      let! ys := for_each body r in
      ret (y :: ys)
  end.

(** *** [np.random] *)

Definition np_random_seed (z : Z) : M unit :=
  fun w => (inr tt, mkworld (np_seed z) (files w)).

Definition draw {A} (f : rng_state -> A * rng_state) : M A :=
  fun w => let r := f (np_state w) in (inr r.1, mkworld r.2 (files w)).

(** A negative [size] is rejected with [ValueError] before any draw. *)
Definition check_size (size : Z) : M nat :=
  if size <? 0 then raise ValueError else ret (Z.to_nat size).

Definition np_random_randint (lo hi : Z) : M Z :=
  if hi <=? lo then raise ValueError else draw (np_randint lo hi).

Definition np_random_randint_size (lo hi size : Z) : M (list Z) :=
  if hi <=? lo then raise ValueError
  else let! n := check_size size in draw (np_randint_n lo hi n).

Definition np_random_uniform (lo hi : float) (size : Z) : M (list float) :=
  let! n := check_size size in draw (np_uniform_n lo hi n).

Definition np_random_choice (pop : list string) (size : Z) : M (list string) :=
  match pop with
  | [] => raise ValueError
  | _ => let! n := check_size size in draw (np_choice_n pop n)
  end.

(** *** [datetime] *)

(** [timedelta(days=k)]: at most 999999999 days either way. *)
Definition timedelta_days (k : Z) : M Z :=
  if (-999999999 <=? k) && (k <=? 999999999) then ret k
  else raise OverflowError.

Definition datetime_add (d : date) (k : Z) : M date :=
  match Datetime.add_days d k with
  | Some d' => ret d'
  | None => raise OverflowError
  end.

(** *** [pandas] *)

(** [pd.DataFrame(data)]: all columns must have one length. *)
Definition DataFrame (data : frame) : M frame :=
  if forallb (fun kc => Nat.eqb (col_len kc.2) (nrows data)) data
  then ret data else raise ValueError.

Definition getitem (df : frame) (name : string) : M column :=
  match frame_get df name with
  | Some c => ret c
  | None => raise KeyError
  end.

Definition setitem (df : frame) (name : string) (c : column) : M frame :=
  match df with
  | [] => ret (frame_set df name c)
  | _ => if Nat.eqb (col_len c) (nrows df) then ret (frame_set df name c)
         else raise ValueError
  end.

(** Elementwise arithmetic: int64 with int64 stays int64 (wrapping), any
    other numeric pair is computed in float64. *)
Definition arith (fi : Z -> Z -> Z) (ff : float -> float -> float)
           (a b : column) : M column :=
  if negb (Nat.eqb (col_len a) (col_len b)) then raise ValueError
  else
    match a, b with
    | IntCol xs, IntCol ys =>
        ret (IntCol (zip_with (fun x y => wrap64 (fi x y)) xs ys))
    | _, _ =>
        match as_floats a, as_floats b with
        | Some xs, Some ys => ret (FloatCol (zip_with ff xs ys))
        | _, _ => raise TypeError
        end
    end.

Definition series_mul := arith Z.mul Float64.mul.
Definition series_add := arith Z.add Float64.add.
Definition series_sub := arith Z.sub Float64.sub.

(** [Series.apply] of a function of floats to a float64 column. *)
Definition series_apply (f : float -> float) (c : column) : M column :=
  match c with
  | FloatCol xs => ret (FloatCol (map f xs))
  | _ => raise TypeError
  end.

Definition to_datetime (c : column) : M column :=
  match c with
  | DateCol xs => ret (DateCol xs)
  | _ => raise TypeError
  end.

Definition dt_strftime_ymd (c : column) : M column :=
  match c with
  | DateCol xs => ret (StrCol (map Datetime.strftime_ymd xs))
  | _ => raise AttributeError
  end.

(** The destination is taken to be writable; the file is replaced. *)
Definition to_csv (df : frame) (filename : string) : M unit :=
  fun w => (inr tt, mkworld (np_state w) (<[filename := csv_text df]> (files w))).

(** *** [generate_large_data] *)

Definition start_date : date := Datetime.mkdate 2020 1 1.

Definition regions : list string :=
  ["North"; "South"; "East"; "West"; "Central"]%string.
Definition product_categories : list string :=
  ["Electronics"; "Clothing"; "Home Goods"; "Books"; "Food"; "Software";
   "Services"]%string.
Definition payment_methods : list string :=
  ["Credit Card"; "Debit Card"; "PayPal"; "Bank Transfer"]%string.

(** Lines 29-61: the frame as it stands when it is saved. *)
Definition build_frame (num_samples : Z) : M frame :=
  let! _ := np_random_seed 42 in
  let! dates :=
    for_each (fun _ =>
                let! k := np_random_randint 0 1095 in
                let! td := timedelta_days k in
                datetime_add start_date td)
             (py_range num_samples) in
  let! customer_ids := np_random_randint_size 10000 99999 num_samples in
  let transaction_id := arange 1 (num_samples + 1) in
  let! region := np_random_choice regions num_samples in
  let! product_category := np_random_choice product_categories num_samples in
  let! units_sold := np_random_randint_size 1 10 num_samples in
  let! price_per_unit :=
    np_random_uniform Float64.f5 Float64.f1000 num_samples in
  let! payment_method := np_random_choice payment_methods num_samples in
  let! shipping_cost :=
    np_random_uniform Float64.f0 Float64.f25 num_samples in
  let! df :=
    DataFrame
      [("TransactionID", IntCol transaction_id);
       ("Date", DateCol dates);
       ("CustomerID", IntCol customer_ids);
       ("Region", StrCol region);
       ("ProductCategory", StrCol product_category);
       ("UnitsSold", IntCol units_sold);
       ("PricePerUnit", FloatCol price_per_unit);
       ("PaymentMethod", StrCol payment_method);
       ("ShippingCost", FloatCol shipping_cost)]%string in
  let! u := getitem df "UnitsSold" in
  let! p := getitem df "PricePerUnit" in
  let! up := series_mul u p in
  let! s := getitem df "ShippingCost" in
  let! total := series_add up s in
  let! df := setitem df "TotalAmount" total in
  let! t := getitem df "TotalAmount" in
  let! margin := np_random_uniform Float64.f0_1 Float64.f0_4 num_samples in
  let! tm := series_mul t (FloatCol margin) in
  let! deduction := np_random_uniform Float64.f0 Float64.f5 num_samples in
  let! raw := series_sub tm (FloatCol deduction) in
  let! df := setitem df "Profit" raw in
  let! pr := getitem df "Profit" in
  let! clamped := series_apply (Float64.py_max Float64.f0_5) pr in
  let! df := setitem df "Profit" clamped in
  let! d := getitem df "Date" in
  let! dt := to_datetime d in
  let! ds := dt_strftime_ymd dt in
  setitem df "Date" ds.

Definition generate_large_data (num_samples : Z) (filename : string) : M unit :=
  let! df := build_frame num_samples in
  to_csv df filename.

End Program.

Arguments world {NR}.
Arguments M {NR} A.

(** ** A reference generator

    A small linear congruential generator that meets the [NumpyRandom]
    laws; it stands in for numpy when the model is run on concrete inputs. *)

Module RefRng.

Definition next (s : Z) : Z := (s * 1103515245 + 12345) mod 2 ^ 31.

Definition randint (lo hi s : Z) : Z * Z :=
  let s' := next s in (lo + s' mod (hi - lo), s').

Definition unit_float (s : Z) : float :=
  binary_normalize Float64.prec Float64.emax s (-31) false.

Definition uniform (lo hi : float) (s : Z) : float * Z :=
  let s' := next s in
  let x := Float64.add lo (Float64.mul (Float64.sub hi lo) (unit_float s')) in
  (if Float64.leb lo x && Float64.ltb x hi then x else lo, s').

Definition choice (pop : list string) (s : Z) : string * Z :=
  let s' := next s in
  (nth (Z.to_nat (s' mod Z.of_nat (length pop))) pop EmptyString, s').

Fixpoint draws {A} (f : Z -> A * Z) (n : nat) (s : Z) : list A * Z :=
  match n with
  | O => ([], s)
  | S n' =>
      let r := f s in
      let rs := draws f n' r.2 in
      (r.1 :: rs.1, rs.2)
  end.

(** Mantissa and binary exponent, as a stand-in for [repr]. *)
Definition repr (x : float) : string :=
  match x with
  | S754_zero s => if s then "-0.0" else "0.0"
  | S754_infinity s => if s then "-inf" else "inf"
  | S754_nan => "nan"
  | S754_finite s m e =>
      (if s then "-" else "") +:+ str_of_Z (Z.pos m) +:+ "p" +:+ str_of_Z e
  end%string.

End RefRng.

(** ** Observations on a frame and on a run *)

Definition int_at (df : frame) (name : string) (i : nat) : option Z :=
  match frame_get df name with
  | Some (IntCol xs) => xs !! i
  | _ => None
  end.

Definition float_at (df : frame) (name : string) (i : nat) : option float :=
  match frame_get df name with
  | Some (FloatCol xs) => xs !! i
  | _ => None
  end.

Definition str_at (df : frame) (name : string) (i : nat) : option string :=
  match frame_get df name with
  | Some (StrCol xs) => xs !! i
  | _ => None
  end.

(** The shape [YYYY-MM-DD]. *)
Definition is_digit (c : ascii) : bool :=
  (48 <=? nat_of_ascii c)%nat && (nat_of_ascii c <=? 57)%nat.

Definition iso_date_shape (s : string) : bool :=
  match list_ascii_of_string s with
  | [y1; y2; y3; y4; h1; m1; m2; h2; d1; d2] =>
      forallb is_digit [y1; y2; y3; y4; m1; m2; d1; d2]
      && Ascii.eqb h1 "-" && Ascii.eqb h2 "-"
  | _ => false
  end.

Definition header_line : string :=
  "TransactionID,Date,CustomerID,Region,ProductCategory,UnitsSold,PricePerUnit,PaymentMethod,ShippingCost,TotalAmount,Profit".

(** What is checked of the date [k] days after the start date: it exists,
    is a calendar date exactly [k] days later, prints in the shape
    [YYYY-MM-DD] without any character the csv writer would quote, and
    lies between 2020-01-01 and 2022-12-30. *)
Definition valid_date (d : date) : bool :=
  (1 <=? Datetime.month d) && (Datetime.month d <=? 12)
  && (1 <=? Datetime.day d)
  && (Datetime.day d
      <=? Datetime.days_in_month (Datetime.year d) (Datetime.month d)).

Definition date_in_window (k : Z) : bool :=
  match Datetime.add_days start_date k with
  | Some d =>
      valid_date d
      && (Datetime.ymd2ord d =? Datetime.ymd2ord start_date + k)
      && iso_date_shape (Datetime.strftime_ymd d)
      && negb (has_char special (Datetime.strftime_ymd d))
      && Datetime.date_leb (Datetime.mkdate 2020 1 1) d
      && Datetime.date_leb d (Datetime.mkdate 2022 12 30)
  | None => false
  end.

(** The text of a CSV line before its first comma. *)
Fixpoint first_field (s : string) : string :=
  match s with
  | EmptyString => EmptyString
  | String c r => if Ascii.eqb c COMMA then EmptyString else String c (first_field r)
  end.

Section Observations.
Context `{NR : NumpyRandom} `{FR : FloatRepr}.

(** [saved N filename w df]: the run from [w] succeeds, [df] is the frame
    it built, and the file holds the CSV text of [df]. *)
Definition saved (N : Z) (filename : string) (w : world) (df : frame) : Prop :=
  (build_frame N w).1 = inr df
  /\ (generate_large_data N filename w).1 = inr tt
  /\ files (generate_large_data N filename w).2 !! filename
     = Some (csv_text df).

(** What a run leaves under [filename], or the exception it raised. *)
Definition output_file (N : Z) (filename : string) (w : world)
  : exn + option string :=
  let r := generate_large_data N filename w in
  match r.1 with
  | inr _ => inr (files r.2 !! filename)
  | inl e => inl e
  end.

(** A computation that reads and writes the generator state only: it
    leaves the files alone, and its outcome and the state it reaches are
    settled by the state it starts from. *)
Definition rng_only {A} (m : M A) : Prop :=
  forall w,
    files (m w).2 = files w
    /\ forall w', np_state w = np_state w' ->
         (m w).1 = (m w').1 /\ np_state (m w).2 = np_state (m w').2.

(** The ten arrays a run draws, and the frame assembled from them. *)
Record arrays := mkarrays {
  a_dates : list date;
  a_customer : list Z;
  a_region : list string;
  a_category : list string;
  a_units : list Z;
  a_price : list float;
  a_payment : list string;
  a_shipping : list float;
  a_margin : list float;
  a_deduction : list float
}.

Definition total_of (a : arrays) : list float :=
  zip_with Float64.add
           (zip_with Float64.mul (map Float64.of_int (a_units a)) (a_price a))
           (a_shipping a).

Definition profit_of (a : arrays) : list float :=
  map (Float64.py_max Float64.f0_5)
      (zip_with Float64.sub
                (zip_with Float64.mul (total_of a) (a_margin a))
                (a_deduction a)).

Definition assemble (N : Z) (a : arrays) : frame :=
  [("TransactionID", IntCol (arange 1 (N + 1)));
   ("Date", StrCol (map Datetime.strftime_ymd (a_dates a)));
   ("CustomerID", IntCol (a_customer a));
   ("Region", StrCol (a_region a));
   ("ProductCategory", StrCol (a_category a));
   ("UnitsSold", IntCol (a_units a));
   ("PricePerUnit", FloatCol (a_price a));
   ("PaymentMethod", StrCol (a_payment a));
   ("ShippingCost", FloatCol (a_shipping a));
   ("TotalAmount", FloatCol (total_of a));
   ("Profit", FloatCol (profit_of a))]%string.

Definition in_range (lo hi : float) (x : float) : Prop :=
  Float64.leb lo x = true /\ Float64.ltb x hi = true.

Record well_drawn (n : nat) (a : arrays) : Prop := {
  wd_dates_len : length (a_dates a) = n;
  wd_dates : Forall (fun d => exists k, 0 <= k < 1095
               /\ Datetime.add_days start_date k = Some d) (a_dates a);
  wd_customer_len : length (a_customer a) = n;
  wd_customer : Forall (fun x => 10000 <= x < 99999) (a_customer a);
  wd_region_len : length (a_region a) = n;
  wd_region : Forall (fun x => x ∈ regions) (a_region a);
  wd_category_len : length (a_category a) = n;
  wd_category : Forall (fun x => x ∈ product_categories) (a_category a);
  wd_units_len : length (a_units a) = n;
  wd_units : Forall (fun x => 1 <= x < 10) (a_units a);
  wd_price_len : length (a_price a) = n;
  wd_price : Forall (in_range Float64.f5 Float64.f1000) (a_price a);
  wd_payment_len : length (a_payment a) = n;
  wd_payment : Forall (fun x => x ∈ payment_methods) (a_payment a);
  wd_shipping_len : length (a_shipping a) = n;
  wd_shipping : Forall (in_range Float64.f0 Float64.f25) (a_shipping a);
  wd_margin_len : length (a_margin a) = n;
  wd_margin : Forall (in_range Float64.f0_1 Float64.f0_4) (a_margin a);
  wd_deduction_len : length (a_deduction a) = n;
  wd_deduction : Forall (in_range Float64.f0 Float64.f5) (a_deduction a);
  wd_streams : exists s,
    a_margin a = (np_uniform_n Float64.f0_1 Float64.f0_4 n s).1
    /\ a_deduction a
       = (np_uniform_n Float64.f0 Float64.f5 n
            (np_uniform_n Float64.f0_1 Float64.f0_4 n s).2).1
}.
End Observations.

(** ** Shapes of float64 values *)

Definition positive_float (x : float) : Prop :=
  exists m e, x = S754_finite false m e.

(** Zero of either sign, or a positive finite value. *)
Definition nonneg_float (x : float) : Prop :=
  (exists s, x = S754_zero s) \/ positive_float x.

(** ** [analyze_big_data]: the report text *)

(** Python's [str.replace(old, new)]: the occurrences of [old] are found
    from left to right without overlap.  [skip] counts the characters of a
    found occurrence that are still to be dropped.  With an empty [old],
    [new] is put before every character and at the end. *)
Fixpoint replace_go (old new : string) (skip : nat) (s : string) : string :=
  match s with
  | EmptyString => EmptyString
  | String c r =>
      match skip with
      | S k => replace_go old new k r
      | O =>
          if String.prefix old s
          then new +:+ replace_go old new (Nat.pred (String.length old)) r
          else String c (replace_go old new O r)
      end
  end.

Fixpoint intersperse_after (new s : string) : string :=
  match s with
  | EmptyString => EmptyString
  | String c r => String c (new +:+ intersperse_after new r)
  end.

Definition str_replace (s old new : string) : string :=
  match old with
  | EmptyString => new +:+ intersperse_after new s
  | _ => replace_go old new O s
  end.

(** [p] occurs somewhere in [s]. *)
Fixpoint has_sub (p s : string) : bool :=
  String.prefix p s
  || match s with
     | EmptyString => false
     | String _ r => has_sub p r
     end.

Definition quoted (s : string) : string :=
  String QUOTE (s +:+ String QUOTE EmptyString).

Definition TABLE_STYLED : string := "<table border=" +:+ quoted "1".
Definition TH_STYLED : string := "<th style=" +:+ quoted "padding: 5px;" +:+ ">".
Definition TD_STYLED : string := "<td style=" +:+ quoted "padding: 5px;" +:+ ">".

(** The expression applied to each of the five tables (lines 154, 159,
    164, 169, 174). *)
Definition style_table (html : string) : string :=
  str_replace
    (str_replace (str_replace html "<table" TABLE_STYLED) "<th>" TH_STYLED)
    "<td>" TD_STYLED.

Definition NL : string := String LF EmptyString.

Definition REPORT_HEADER : string := "--- Big Data Analysis Report ---" +:+ NL +:+ NL.
Definition REPORT_FOOTER : string := NL +:+ "--- End of Report ---" +:+ NL.

(** ** [analyze_big_data]: the engine and the queries

    Spark is external.  A query is kept as the data the script passes to
    it; what the engine answers is a parameter.  Any call into the engine
    may raise. *)

Inductive aggregate := Sum | Avg | Count.

Record agg_column := mkagg {
  agg_fn : aggregate;
  agg_input : string;
  agg_alias : string
}.

Inductive ordering := Ascending (c : string) | Descending (c : string).

(** [withColumn(name, date_format(col(source), fmt))], when present, then
    [groupBy(q_group).agg(q_aggs).orderBy(q_order)], then [limit]. *)
Record query := mkquery {
  q_derived : option (string * string * string);
  q_group : string;
  q_aggs : list agg_column;
  q_order : ordering;
  q_limit : option Z
}.

Definition sales_by_region : query :=
  mkquery None "Region"
          [mkagg Sum "TotalAmount" "TotalSales";
           mkagg Sum "Profit" "TotalProfit"]
          (Descending "TotalSales") None.

Definition top_products : query :=
  mkquery None "ProductCategory"
          [mkagg Sum "TotalAmount" "TotalSales"]
          (Descending "TotalSales") (Some 5).

Definition monthly_sales : query :=
  mkquery (Some ("YearMonth", "Date", "yyyy-MM")%string) "YearMonth"
          [mkagg Sum "TotalAmount" "MonthlySales"]
          (Ascending "YearMonth") None.

Definition avg_transaction_value : query :=
  mkquery None "PaymentMethod"
          [mkagg Avg "TotalAmount" "AverageTransactionValue";
           mkagg Count "TransactionID" "NumberOfTransactions"]
          (Descending "NumberOfTransactions") None.

Definition top_customers : query :=
  mkquery None "CustomerID"
          [mkagg Count "TransactionID" "NumberOfTransactions";
           mkagg Sum "TotalAmount" "TotalSpent"]
          (Descending "NumberOfTransactions") (Some 10).

Definition insights : list query :=
  [sales_by_region; top_products; monthly_sales; avg_transaction_value;
   top_customers].

(** The columns a query reads from the loaded data, and those it yields. *)
Definition query_inputs (q : query) : list string :=
  match q_derived q with
  | Some (name, source, _) =>
      source :: List.filter (fun c => negb (String.eqb c name))
                            (q_group q :: map agg_input (q_aggs q))
  | None => q_group q :: map agg_input (q_aggs q)
  end.

Definition query_outputs (q : query) : list string :=
  q_group q :: map agg_alias (q_aggs q).

Definition order_column (q : query) : string :=
  match q_order q with
  | Ascending c => c
  | Descending c => c
  end.

(** What ends a call: an exception that [except Exception] catches, named
    by its class, or the [SystemExit] that [exit()] raises. *)
Inductive signal := Exception (name : string) | SystemExit.


(** The engine: its state is opaque, every call sees the files on disk and
    returns a value or raises.  [spark_repr_html] is [_repr_html_], which
    gives the table as text, or [None]. *)
Class SparkEngine := {
  engine : Type;
  sdf : Type;
  spark_getOrCreate :
    string -> string -> string ->
    gmap string string -> engine -> (signal + unit) * engine;
  spark_read_csv :
    string -> bool -> bool ->
    gmap string string -> engine -> (signal + sdf) * engine;
  spark_printSchema :
    sdf -> gmap string string -> engine -> (signal + unit) * engine;
  spark_show :
    sdf -> Z -> gmap string string -> engine -> (signal + unit) * engine;
  spark_count :
    sdf -> gmap string string -> engine -> (signal + Z) * engine;
  spark_query :
    query -> sdf -> gmap string string -> engine -> (signal + sdf) * engine;
  spark_repr_html :
    sdf -> gmap string string -> engine -> (signal + option string) * engine;
  spark_stop :
    gmap string string -> engine -> (signal + unit) * engine
}.

Definition DATA_FILENAME : string := "large_synthetic_data.csv".
Definition ANALYSIS_REPORT_FILENAME : string := "analysis_report.txt".
Definition SPARK_DRIVER_MEMORY : string := "4g".

Section Analysis.
Context `{NR : NumpyRandom} `{FR : FloatRepr} `{SE : SparkEngine}.

(** The whole process: the Python side and the engine. *)
Record process := mkprocess {
  py : world;
  jvm : engine
}.

Definition disk (p : process) : gmap string string := files (py p).

Definition P (A : Type) : Type := process -> (signal + A) * process.

Definition pret {A} (a : A) : P A := fun p => (inr a, p).
Definition praise {A} (e : signal) : P A := fun p => (inl e, p).
Definition pbind {A B} (m : P A) (k : A -> P B) : P B :=
  fun p =>
    match m p with
    | (inl e, p') => (inl e, p')
    | (inr a, p') => k a p'
    end.

Notation "'let*' x ':=' c1 'in' c2" := (pbind c1 (fun x => c2))
  (at level 10, x name, c1 at level 100, c2 at level 200).

(** A call into the engine. *)
Definition call {A}
           (f : gmap string string -> engine -> (signal + A) * engine) : P A :=
  fun p => let r := f (disk p) (jvm p) in (r.1, mkprocess (py p) r.2).


(** [try: body except Exception: handler]; [SystemExit] passes through. *)
Definition try_except {A} (body : P A) (handler : string -> P A) : P A :=
  fun p =>
    match body p with
    | (inl (Exception name), p') => handler name p'
    | r => r
    end.

Definition exit {A} : P A := praise SystemExit.

(** [open(filename, 'w')] creates the file or empties it; [f.write(s)]
    adds to its end.  A [with] block closes the file however it is left,
    so what was written stays.  The file is taken to be writable. *)
Definition open_w (filename : string) : P unit :=
  fun p =>
    (inr tt,
     mkprocess (mkworld (np_state (py p))
                        (<[filename := EmptyString]> (disk p)))
               (jvm p)).

Definition f_write (filename : string) (s : string) : P unit :=
  fun p =>
    (inr tt,
     mkprocess (mkworld (np_state (py p))
                        (<[filename := default EmptyString (disk p !! filename)
                                        +:+ s]> (disk p)))
               (jvm p)).

(** [html.replace(...)...]: [None] has no [replace]. *)
Definition styled (html : option string) : P string :=
  match html with
  | Some h => pret (style_table h)
  | None => praise (Exception "AttributeError")
  end.

(** Lines 88-94, the body of the [try]. *)
Definition load_data (data_filename : string) : P sdf :=
  let* df_spark := call (spark_read_csv data_filename true true) in
  let* _ := call (spark_printSchema df_spark) in
  let* _ := call (spark_show df_spark 5) in
  let* _ := call (spark_count df_spark) in
  pret df_spark.

(** The five result tables of lines 106-140. *)
Record tables := mktables {
  tbl_sales_by_region : sdf;
  tbl_top_products : sdf;
  tbl_monthly_sales : sdf;
  tbl_avg_transaction_value : sdf;
  tbl_top_customers : sdf
}.

(** Lines 106-141: each query is built, then shown. *)
Definition run_insights (df_spark : sdf) : P tables :=
  let* t1 := call (spark_query sales_by_region df_spark) in
  let* _ := call (spark_show t1 20) in
  let* t2 := call (spark_query top_products df_spark) in
  let* _ := call (spark_show t2 20) in
  let* t3 := call (spark_query monthly_sales df_spark) in
  let* _ := call (spark_show t3 50) in
  let* t4 := call (spark_query avg_transaction_value df_spark) in
  let* _ := call (spark_show t4 20) in
  let* t5 := call (spark_query top_customers df_spark) in
  let* _ := call (spark_show t5 20) in
  pret (mktables t1 t2 t3 t4 t5).

(** One section of the report: the title, the styled table, a blank
    line. *)
Definition write_insight (report_filename : string)
           (title : string) (table : sdf) : P unit :=
  let* _ := f_write report_filename (title +:+ NL) in
  let* html := call (spark_repr_html table) in
  let* text := styled html in
  let* _ := f_write report_filename text in
  f_write report_filename (NL +:+ NL).

(** Lines 146-177, the [with] block. *)
Definition write_report (report_filename : string) (t : tables) : P unit :=
  let* _ := open_w report_filename in
  let* _ := f_write report_filename REPORT_HEADER in
  let* _ := write_insight report_filename
              "Insight 1: Total Sales and Profit by Region"
              (tbl_sales_by_region t) in
  let* _ := write_insight report_filename
              "Insight 2: Top 5 Product Categories by Sales"
              (tbl_top_products t) in
  let* _ := write_insight report_filename
              "Insight 3: Monthly Sales Trend (First 50 Months)"
              (tbl_monthly_sales t) in
  let* _ := write_insight report_filename
              "Insight 4: Average Transaction Value by Payment Method"
              (tbl_avg_transaction_value t) in
  let* _ := write_insight report_filename
              "Insight 5: Top 10 Customers by Number of Transactions"
              (tbl_top_customers t) in
  f_write report_filename REPORT_FOOTER.

Definition analyze_big_data (data_filename report_filename : string) : P unit :=
  let* _ :=
    call (spark_getOrCreate "BigDataAnalysisPipeline" "spark.driver.memory"
                            SPARK_DRIVER_MEMORY) in
  let* df_spark :=
    try_except (load_data data_filename)
               (fun _ => let* _ := call spark_stop in exit) in
  let* t := run_insights df_spark in
  let* _ := write_report report_filename t in
  call spark_stop.




End Analysis.

Arguments process {NR SE}.
Arguments P {NR SE} A.

(** ** A reference engine

    A small stand-in for Spark, used to run the model: it keeps a log of
    the calls, knows of a loaded file its header columns and its number of
    records, refuses a query that reads a column the data lacks, and
    renders a table as text only when [eager] is set. *)

Module RefSpark.

Fixpoint first_line (s : string) : string :=
  match s with
  | EmptyString => EmptyString
  | String c r =>
      if Ascii.eqb c LF then EmptyString else String c (first_line r)
  end.

Fixpoint fields (s : string) : list string :=
  match s with
  | EmptyString => [EmptyString]
  | String c r =>
      if Ascii.eqb c COMMA then EmptyString :: fields r
      else match fields r with
           | [] => [String c EmptyString]
           | f :: fs => String c f :: fs
           end
  end.

Definition has_column (cols : list string) (c : string) : bool :=
  existsb (String.eqb c) cols.

Definition read (path : string) (fs : gmap string string) (log : list string)
  : (signal + list string * Z) * list string :=
  match fs !! path with
  | None => (inl (Exception "AnalysisException"), log ++ ["read"%string])
  | Some text =>
      (inr (fields (first_line text), Z.of_nat (line_count text) - 1),
       log ++ ["read"%string])
  end.

Definition answer (q : query) (t : list string * Z) (log : list string)
  : (signal + list string * Z) * list string :=
  if forallb (has_column t.1) (query_inputs q)
  then (inr (query_outputs q,
             match q_limit q with
             | Some k => Z.min k t.2
             | None => t.2
             end), log ++ ["query"%string])
  else (inl (Exception "AnalysisException"), log ++ ["query"%string]).

Definition html_of (t : list string * Z) : string :=
  "<table><tr>"
  +:+ String.concat EmptyString (map (fun c => "<th>" +:+ c +:+ "</th>") t.1)
  +:+ "</tr></table>".

End RefSpark.

Definition ref_spark (eager : bool) : SparkEngine := {|
  engine := list string;
  sdf := list string * Z;
  spark_getOrCreate := fun _ _ _ _ log => (inr tt, log ++ ["getOrCreate"%string]);
  spark_read_csv := fun path _ _ fs log => RefSpark.read path fs log;
  spark_printSchema := fun _ _ log => (inr tt, log ++ ["printSchema"%string]);
  spark_show := fun _ _ _ log => (inr tt, log ++ ["show"%string]);
  spark_count := fun t _ log => (inr t.2, log ++ ["count"%string]);
  spark_query := fun q t _ log => RefSpark.answer q t log;
  spark_repr_html := fun t _ log =>
    (inr (if eager then Some (RefSpark.html_of t) else None),
     log ++ ["_repr_html_"%string]);
  spark_stop := fun _ log => (inr tt, log ++ ["stop"%string])
|}.

(** * Properties *)

(** ** binary64 comparisons *)


Lemma compare_refl (a : float) :
  Float64.is_nan a = false -> SFcompare a a = Some Eq.
Proof.
  destruct a as [s|s| |s m e]; simpl; try congruence.
  - destruct s; reflexivity.
  - intros _. rewrite Z.compare_refl, Pos.compare_cont_refl.
    destruct s; reflexivity.
Qed.

Lemma ltb_not_nan (a b : float) :
  Float64.ltb a b = true -> Float64.is_nan a = false.
Proof. destruct a; simpl; try reflexivity. discriminate. Qed.

Lemma leb_refl (a : float) : Float64.is_nan a = false -> Float64.leb a a = true.
Proof.
  intros H. unfold Float64.leb, SFleb. rewrite (compare_refl _ H). reflexivity.
Qed.


(** ** Plain text *)

Lemma csv_field_plain s : has_char special s = false -> csv_field s = s.
Proof. intros H. unfold csv_field. by rewrite H. Qed.

Lemma pretty_N_go_plain x s :
  has_char special s = false -> has_char special (pretty_N_go x s) = false.
Proof.
  revert s. induction (N.lt_wf_0 x) as [x _ IH]; intros s Hs.
  assert (x = 0 \/ 0 < x)%N as [->|Hx] by lia.
  - by rewrite pretty_N_go_0.
  - rewrite pretty_N_go_step by done. apply IH.
    + by apply N.div_lt.
    + cbn [has_char]. rewrite Hs. unfold pretty_N_char.
      by repeat case_match.
Qed.

Lemma pretty_N_plain (x : N) : has_char special (pretty x) = false.
Proof.
  unfold pretty, pretty_N. case_decide; [done|].
  by apply pretty_N_go_plain.
Qed.

(** Decimal integers hold digits and a sign only. *)
Lemma str_of_Z_plain z : has_char special (str_of_Z z) = false.
Proof.
  unfold str_of_Z, pretty, pretty_Z.
  destruct z as [|q|q]; [done| |].
  - apply (pretty_N_plain (N.pos q)).
  - cbn [String.app has_char]. apply (pretty_N_plain (N.pos q)).
Qed.

Lemma has_char_app p a b : has_char p (a +:+ b) = has_char p a || has_char p b.
Proof. induction a as [|c a IH]; simpl; [done|]. by rewrite IH, orb_assoc. Qed.

Lemma count_char_app c a b :
  count_char c (a +:+ b) = (count_char c a + count_char c b)%nat.
Proof. induction a as [|c' a IH]; simpl; [done|]. rewrite IH. lia. Qed.

Lemma plain_no_line_feed s : has_char special s = false -> count_char LF s = O.
Proof.
  induction s as [|c s IH]; simpl; [done|]. intros H.
  apply orb_false_elim in H as [Hc Hs]. rewrite (IH Hs).
  unfold special in Hc.
  repeat (apply orb_false_elim in Hc as [Hc ?]).
  by destruct (Ascii.eqb c LF).
Qed.

(** A line of plain fields holds no line feed. *)
Lemma csv_line_no_line_feed fields :
  Forall (fun c => has_char special c = false) fields ->
  count_char LF (csv_line fields) = O.
Proof.
  unfold csv_line. induction 1 as [|c r Hc Hr IH]; [done|].
  destruct r as [|c' r']; simpl.
  - by apply plain_no_line_feed.
  - simpl in IH. rewrite count_char_app, (plain_no_line_feed c Hc).
    simpl. exact IH.
Qed.

(** A text of [n] lines without inner line feeds counts [n] lines. *)
Lemma line_count_unlines ls :
  Forall (fun l => count_char LF l = O) ls ->
  line_count (unlines ls) = length ls.
Proof.
  unfold line_count. induction 1 as [|l r Hl Hr IH]; [done|].
  cbn [unlines length]. rewrite count_char_app, Hl.
  cbn [count_char]. rewrite IH. done.
Qed.

Lemma ref_repr_plain x : has_char special (RefRng.repr x) = false.
Proof.
  destruct x as [[]|[]| |[] m e]; try reflexivity; unfold RefRng.repr;
    rewrite ?has_char_app, !str_of_Z_plain; reflexivity.
Qed.

(** ** The reference generator meets the interface *)

Lemma draws_length {A} (f : Z -> A * Z) n s :
  length (RefRng.draws f n s).1 = n.
Proof. revert s. induction n as [|n IH]; intros s; simpl; [done|]. by rewrite IH. Qed.

Lemma draws_Forall {A} (P : A -> Prop) (f : Z -> A * Z) n s :
  (forall s', P (f s').1) -> Forall P (RefRng.draws f n s).1.
Proof.
  intros Hf. revert s. induction n as [|n IH]; intros s; simpl.
  - constructor.
  - constructor; [apply Hf | apply IH].
Qed.

Lemma ref_randint_range lo hi s :
  lo < hi -> lo <= (RefRng.randint lo hi s).1 < hi.
Proof.
  intros H. unfold RefRng.randint. simpl.
  pose proof (Z.mod_pos_bound (RefRng.next s) (hi - lo)). lia.
Qed.

Lemma ref_uniform_range lo hi s :
  Float64.ltb lo hi = true ->
  Float64.leb lo (RefRng.uniform lo hi s).1 = true
  /\ Float64.ltb (RefRng.uniform lo hi s).1 hi = true.
Proof.
  intros H. unfold RefRng.uniform. simpl.
  match goal with |- context [if ?c then _ else _] => destruct c eqn:E end.
  - apply andb_prop in E. exact E.
  - split; [apply leb_refl, (ltb_not_nan _ _ H) | exact H].
Qed.

Lemma ref_choice_elem (pop : list string) s :
  pop <> [] -> (RefRng.choice pop s).1 ∈ pop.
Proof.
  intros H. unfold RefRng.choice. simpl.
  apply list_elem_of_In, nth_In.
  assert (0 < Z.of_nat (length pop)) by (destruct pop; [done | simpl; lia]).
  pose proof (Z.mod_pos_bound (RefRng.next s) (Z.of_nat (length pop))). lia.
Qed.

#[export] Instance ref_numpy : NumpyRandom := {|
  rng_state := Z;
  np_seed := fun z => z;
  np_randint := RefRng.randint;
  np_randint_n := fun lo hi => RefRng.draws (RefRng.randint lo hi);
  np_uniform_n := fun lo hi => RefRng.draws (RefRng.uniform lo hi);
  np_choice_n := fun pop => RefRng.draws (RefRng.choice pop);
  np_randint_range := ref_randint_range;
  np_randint_n_length := fun lo hi => draws_length _;
  np_randint_n_range := fun lo hi n s H =>
    draws_Forall _ _ n s (fun s' => ref_randint_range lo hi s' H);
  np_uniform_n_length := fun lo hi => draws_length _;
  np_uniform_n_range := fun lo hi n s H =>
    draws_Forall _ _ n s (fun s' => ref_uniform_range lo hi s' H);
  np_choice_n_length := fun pop => draws_length _;
  np_choice_n_elem := fun pop n s H =>
    draws_Forall _ _ n s (fun s' => ref_choice_elem pop s' H)
|}.

#[export] Instance ref_repr : FloatRepr := {|
  float_repr := RefRng.repr;
  float_repr_plain := ref_repr_plain
|}.

(** A world to run from: some earlier generator state, no files. *)
Definition w_ref : world := mkworld (NR := ref_numpy) 7 ∅.

(** ** Sanity checks of the calendar and of the integer text *)

Example ord_2020 : Datetime.ymd2ord (Datetime.mkdate 2020 1 1) = 737425.
Proof. reflexivity. Qed.

Example add_1094 :
  Datetime.add_days (Datetime.mkdate 2020 1 1) 1094
  = Some (Datetime.mkdate 2022 12 30).
Proof. reflexivity. Qed.

Example fmt_date :
  Datetime.strftime_ymd (Datetime.mkdate 2020 2 29) = "2020-02-29"%string.
Proof. reflexivity. Qed.

Example str_of_Z_ex :
  str_of_Z 10000 = "10000"%string /\ str_of_Z (-7) = "-7"%string.
Proof. split; vm_compute; reflexivity. Qed.

(** The float literals are binary64 values, 0.5 exactly one half, 0.1 and
    0.4 within less than half a unit in the last place of the decimal. *)
Example literal_values :
  forallb (valid_binary Float64.prec Float64.emax)
          [Float64.f0_1; Float64.f0_4; Float64.f0_5; Float64.f5;
           Float64.f25; Float64.f1000] = true
  /\ Float64.f0_1 = S754_finite false 7205759403792794 (-56)
  /\ Z.abs (10 * 7205759403792794 - 1 * 2 ^ 56) < 5
  /\ Float64.f0_4 = S754_finite false 7205759403792794 (-54)
  /\ Z.abs (10 * 7205759403792794 - 4 * 2 ^ 54) < 5
  /\ Float64.f0_5 = S754_finite false (2 ^ 52) (-53).
Proof. repeat split; reflexivity. Qed.

(** ** Running the monad *)

Section Runs.
Context `{NR : NumpyRandom} `{FR : FloatRepr}.

Lemma bind_inr {A B} (m : M A) (k : A -> M B) w a w' :
  m w = (inr a, w') -> bind m k w = k a w'.
Proof. intros H. unfold bind. by rewrite H. Qed.

Lemma bind_inl {A B} (m : M A) (k : A -> M B) w e w' :
  m w = (inl e, w') -> bind m k w = (inl e, w').
Proof. intros H. unfold bind. by rewrite H. Qed.

(** *** Computations that leave the files alone *)

Lemma rng_only_ret {A} (a : A) : rng_only (ret a).
Proof. intros w. split; [done|]. by intros w' H. Qed.

Lemma rng_only_raise {A} (e : exn) : rng_only (raise (A := A) e).
Proof. intros w. split; [done|]. by intros w' H. Qed.

Lemma rng_only_draw {A} (f : rng_state -> A * rng_state) : rng_only (draw f).
Proof.
  intros w. split; [done|]. intros w' H. unfold draw. simpl. by rewrite H.
Qed.

Lemma rng_only_bind {A B} (m : M A) (k : A -> M B) :
  rng_only m -> (forall a, rng_only (k a)) -> rng_only (bind m k).
Proof.
  intros Hm Hk w. destruct (Hm w) as [Hf Hs]. unfold bind. split.
  - destruct (m w) as [[e|a] w1] eqn:E; simpl in *; [done|].
    destruct (Hk a w1) as [Hf1 _]. congruence.
  - intros w' Hw. destruct (Hs w' Hw) as [H1 H2].
    destruct (m w) as [[e|a] w1] eqn:E;
      destruct (m w') as [[e'|a'] w1'] eqn:E'; simpl in *; try congruence.
    + split; [congruence|done].
    + injection H1 as ->. destruct (Hk a' w1) as [_ Hk1]. by apply Hk1.
Qed.

Lemma rng_only_for_each {A B} (body : A -> M B) xs :
  (forall x, rng_only (body x)) -> rng_only (for_each body xs).
Proof.
  intros Hb. induction xs as [|x r IH]; simpl.
  - apply rng_only_ret.
  - apply rng_only_bind; [apply Hb|]. intros y.
    apply rng_only_bind; [apply IH|]. intros ys. apply rng_only_ret.
Qed.

Ltac rng_leaf :=
  repeat first
    [ apply rng_only_ret
    | apply rng_only_raise
    | apply rng_only_draw
    | apply rng_only_for_each; intros
    | apply rng_only_bind; [|intros]
    | case_match ].

Lemma rng_only_check_size size : rng_only (check_size size).
Proof. unfold check_size. rng_leaf. Qed.

Lemma rng_only_randint lo hi : rng_only (np_random_randint lo hi).
Proof. unfold np_random_randint. rng_leaf. Qed.

Lemma rng_only_randint_size lo hi size :
  rng_only (np_random_randint_size lo hi size).
Proof. unfold np_random_randint_size, check_size. rng_leaf. Qed.

Lemma rng_only_uniform lo hi size : rng_only (np_random_uniform lo hi size).
Proof. unfold np_random_uniform, check_size. rng_leaf. Qed.

Lemma rng_only_choice pop size : rng_only (np_random_choice pop size).
Proof. unfold np_random_choice, check_size. rng_leaf. Qed.

Lemma rng_only_timedelta k : rng_only (timedelta_days k).
Proof. unfold timedelta_days. rng_leaf. Qed.

Lemma rng_only_datetime_add d k : rng_only (datetime_add d k).
Proof. unfold datetime_add. rng_leaf. Qed.

Lemma rng_only_DataFrame data : rng_only (DataFrame data).
Proof. unfold DataFrame. rng_leaf. Qed.

Lemma rng_only_getitem df name : rng_only (getitem df name).
Proof. unfold getitem. rng_leaf. Qed.

Lemma rng_only_setitem df name c : rng_only (setitem df name c).
Proof. unfold setitem. rng_leaf. Qed.

Lemma rng_only_arith fi ff a b : rng_only (arith fi ff a b).
Proof. unfold arith. rng_leaf. Qed.

Lemma rng_only_apply f c : rng_only (series_apply f c).
Proof. unfold series_apply. rng_leaf. Qed.

Lemma rng_only_to_datetime c : rng_only (to_datetime c).
Proof. unfold to_datetime. rng_leaf. Qed.

Lemma rng_only_strftime c : rng_only (dt_strftime_ymd c).
Proof. unfold dt_strftime_ymd. rng_leaf. Qed.

Create HintDb rng.
#[local] Hint Resolve rng_only_ret rng_only_raise rng_only_draw
  rng_only_check_size rng_only_randint
  rng_only_randint_size rng_only_uniform rng_only_choice rng_only_timedelta
  rng_only_datetime_add rng_only_DataFrame rng_only_getitem
  rng_only_setitem rng_only_arith rng_only_apply rng_only_to_datetime
  rng_only_strftime : rng.

(** Once seeded, the rest of [build_frame] is settled by [N]: its
    outcome and final generator state do not depend on the world it was
    started in, and the files are left as they were. *)
Lemma build_frame_seeded N :
  exists r s, forall w, build_frame N w = (r, mkworld s (files w)).
Proof.
  unfold build_frame.
  match goal with
  | |- context [bind (np_random_seed 42) ?k] => set (rest := k)
  end.
  assert (Hk : rng_only (rest tt)).
  { subst rest. cbv beta.
    repeat first
      [ unfold series_mul, series_add, series_sub; solve [auto with rng]
      | apply rng_only_for_each; intros
      | apply rng_only_bind; [|intros] ]. }
  pose (w0 := mkworld (np_seed 42) (∅ : gmap string string)).
  exists (rest tt w0).1, (np_state (rest tt w0).2).
  intros w.
  change (bind (np_random_seed 42) rest w)
    with (rest tt (mkworld (np_seed 42) (files w))).
  destruct (Hk (mkworld (np_seed 42) (files w))) as [Hf Hs].
  destruct (Hs w0 eq_refl) as [H1 H2].
  destruct (rest tt (mkworld (np_seed 42) (files w))) as [r [s f]].
  simpl in Hf, H1, H2. by rewrite H1, H2, Hf.
Qed.

(** *** Steps of a run on a non-negative count *)

Lemma length_arange lo hi : length (arange lo hi) = Z.to_nat (hi - lo).
Proof. unfold arange. by rewrite length_map, length_seq. Qed.

Lemma check_size_run N w : 0 <= N -> check_size N w = (inr (Z.to_nat N), w).
Proof.
  intros H. unfold check_size.
  destruct (N <? 0) eqn:E; [apply Z.ltb_lt in E; lia | done].
Qed.

Lemma randint_run lo hi s f :
  lo < hi ->
  np_random_randint lo hi (mkworld s f)
  = (inr (np_randint lo hi s).1, mkworld (np_randint lo hi s).2 f).
Proof.
  intros H. unfold np_random_randint.
  destruct (hi <=? lo) eqn:E; [apply Z.leb_le in E; lia | done].
Qed.

Lemma randint_size_run lo hi N s f :
  lo < hi -> 0 <= N ->
  np_random_randint_size lo hi N (mkworld s f)
  = (inr (np_randint_n lo hi (Z.to_nat N) s).1,
     mkworld (np_randint_n lo hi (Z.to_nat N) s).2 f).
Proof.
  intros H HN. unfold np_random_randint_size.
  destruct (hi <=? lo) eqn:E; [apply Z.leb_le in E; lia|].
  by rewrite (bind_inr _ _ _ _ _ (check_size_run N _ HN)).
Qed.

Lemma uniform_run lo hi N s f :
  0 <= N ->
  np_random_uniform lo hi N (mkworld s f)
  = (inr (np_uniform_n lo hi (Z.to_nat N) s).1,
     mkworld (np_uniform_n lo hi (Z.to_nat N) s).2 f).
Proof.
  intros HN. unfold np_random_uniform.
  by rewrite (bind_inr _ _ _ _ _ (check_size_run N _ HN)).
Qed.

Lemma choice_run pop N s f :
  pop <> [] -> 0 <= N ->
  np_random_choice pop N (mkworld s f)
  = (inr (np_choice_n pop (Z.to_nat N) s).1,
     mkworld (np_choice_n pop (Z.to_nat N) s).2 f).
Proof.
  intros Hp HN. unfold np_random_choice. destruct pop; [done|].
  by rewrite (bind_inr _ _ _ _ _ (check_size_run N _ HN)).
Qed.

(** One pass of the loop body of line 33. *)
Lemma date_body_run s f :
  exists d s',
    bind (np_random_randint 0 1095)
         (fun k => bind (timedelta_days k)
                        (fun td => datetime_add start_date td))
         (mkworld s f)
    = (inr d, mkworld s' f)
    /\ exists k, 0 <= k < 1095 /\ Datetime.add_days start_date k = Some d.
Proof.
  pose proof (np_randint_range 0 1095 s ltac:(lia)) as Hk.
  rewrite (bind_inr _ _ _ _ _ (randint_run 0 1095 s f ltac:(lia))).
  set (k := (np_randint 0 1095 s).1) in *.
  assert (Ht : forall w, timedelta_days k w = (inr k, w)).
  { intros w. unfold timedelta_days.
    destruct (-999999999 <=? k) eqn:E1; [|apply Z.leb_gt in E1; lia].
    destruct (k <=? 999999999) eqn:E2; [done|apply Z.leb_gt in E2; lia]. }
  rewrite (bind_inr _ _ _ _ _ (Ht _)).
  assert (Ha : Datetime.add_days start_date k
               = Some (Datetime.ord2ymd (737425 + k))).
  { unfold Datetime.add_days.
    change (Datetime.ymd2ord start_date) with 737425.
    unfold Datetime.MAXORDINAL.
    destruct (0 <? 737425 + k) eqn:E1; [|apply Z.ltb_ge in E1; lia].
    destruct (737425 + k <=? 3652059) eqn:E2; [done|apply Z.leb_gt in E2; lia]. }
  exists (Datetime.ord2ymd (737425 + k)), (np_randint 0 1095 s).2.
  split; [|by exists k].
  unfold datetime_add. by rewrite Ha.
Qed.

Lemma dates_run (xs : list Z) s f :
  exists ds s',
    for_each (fun _ : Z =>
                bind (np_random_randint 0 1095)
                     (fun k => bind (timedelta_days k)
                                    (fun td => datetime_add start_date td)))
             xs (mkworld s f)
    = (inr ds, mkworld s' f)
    /\ length ds = length xs
    /\ Forall (fun d => exists k, 0 <= k < 1095
                 /\ Datetime.add_days start_date k = Some d) ds.
Proof.
  revert s. induction xs as [|x r IH]; intros s.
  - exists [], s. by repeat split.
  - destruct (date_body_run s f) as (d & s1 & E1 & Hd).
    destruct (IH s1) as (ds & s2 & E2 & L & F).
    exists (d :: ds), s2. split; [|split].
    + cbn [for_each].
      rewrite (bind_inr _ _ _ _ _ E1), (bind_inr _ _ _ _ _ E2). done.
    + simpl. by rewrite L.
    + by constructor.
Qed.

Lemma DataFrame_run (data : frame) w :
  forallb (fun kc => Nat.eqb (col_len kc.2) (nrows data)) data = true ->
  DataFrame data w = (inr data, w).
Proof. intros H. unfold DataFrame. by rewrite H. Qed.

Lemma nrows_frame_set (df : frame) name c :
  col_len c = nrows df -> nrows (frame_set df name c) = nrows df.
Proof.
  destruct df as [|[k v] r]; simpl; [done|].
  by destruct (String.eqb k name).
Qed.

Lemma setitem_run (df : frame) name c w :
  col_len c = nrows df ->
  setitem df name c w = (inr (frame_set df name c), w).
Proof.
  intros H. unfold setitem. destruct df; [done|].
  by rewrite H, Nat.eqb_refl.
Qed.

Lemma arith_int_float fi ff xs ys w :
  length xs = length ys ->
  arith fi ff (IntCol xs) (FloatCol ys) w
  = (inr (FloatCol (zip_with ff (map Float64.of_int xs) ys)), w).
Proof. intros H. unfold arith. simpl. by rewrite H, Nat.eqb_refl. Qed.

Lemma arith_float_float fi ff xs ys w :
  length xs = length ys ->
  arith fi ff (FloatCol xs) (FloatCol ys) w
  = (inr (FloatCol (zip_with ff xs ys)), w).
Proof. intros H. unfold arith. simpl. by rewrite H, Nat.eqb_refl. Qed.

Ltac step H := rewrite (bind_inr _ _ _ _ _ H); cbv beta.

(** A run on [0 <= N] builds the frame assembled from its ten draws. *)
Lemma build_frame_run N w :
  0 <= N ->
  exists a s',
    well_drawn (Z.to_nat N) a
    /\ build_frame N w = (inr (assemble N a), mkworld s' (files w)).
Proof.
  intros HN. set (n := Z.to_nat N). set (f := files w).
  destruct (dates_run (py_range N) (np_seed 42) f) as (ds & s1 & E1 & L1 & F1).
  assert (L1' : length ds = n).
  { rewrite L1. unfold py_range. rewrite length_arange. subst n. f_equal. lia. }
  pose (r2 := np_randint_n 10000 99999 n s1).
  pose (r3 := np_choice_n regions n r2.2).
  pose (r4 := np_choice_n product_categories n r3.2).
  pose (r5 := np_randint_n 1 10 n r4.2).
  pose (r6 := np_uniform_n Float64.f5 Float64.f1000 n r5.2).
  pose (r7 := np_choice_n payment_methods n r6.2).
  pose (r8 := np_uniform_n Float64.f0 Float64.f25 n r7.2).
  pose (r9 := np_uniform_n Float64.f0_1 Float64.f0_4 n r8.2).
  pose (r10 := np_uniform_n Float64.f0 Float64.f5 n r9.2).
  assert (L2 : length r2.1 = n) by apply np_randint_n_length.
  assert (L3 : length r3.1 = n) by apply np_choice_n_length.
  assert (L4 : length r4.1 = n) by apply np_choice_n_length.
  assert (L5 : length r5.1 = n) by apply np_randint_n_length.
  assert (L6 : length r6.1 = n) by apply np_uniform_n_length.
  assert (L7 : length r7.1 = n) by apply np_choice_n_length.
  assert (L8 : length r8.1 = n) by apply np_uniform_n_length.
  assert (L9 : length r9.1 = n) by apply np_uniform_n_length.
  assert (L10 : length r10.1 = n) by apply np_uniform_n_length.
  exists (mkarrays ds r2.1 r3.1 r4.1 r5.1 r6.1 r7.1 r8.1 r9.1 r10.1), r10.2.
  split.
  { constructor; cbn [a_dates a_customer a_region a_category a_units
                      a_price a_payment a_shipping a_margin a_deduction].
    all: try done.
    all: try (apply np_randint_n_range; lia).
    all: try (apply np_uniform_n_range; reflexivity).
    all: try (apply np_choice_n_elem; discriminate).
    exists r8.2. done. }
  unfold build_frame.
  step (eq_refl : np_random_seed 42 w = (inr tt, mkworld (np_seed 42) f)).
  step E1.
  step (randint_size_run 10000 99999 N s1 f ltac:(lia) HN).
  step (choice_run regions N r2.2 f ltac:(discriminate) HN).
  step (choice_run product_categories N r3.2 f ltac:(discriminate) HN).
  step (randint_size_run 1 10 N r4.2 f ltac:(lia) HN).
  step (uniform_run Float64.f5 Float64.f1000 N r5.2 f HN).
  step (choice_run payment_methods N r6.2 f ltac:(discriminate) HN).
  step (uniform_run Float64.f0 Float64.f25 N r7.2 f HN).
  fold n r2 r3 r4 r5 r6 r7 r8.
  assert (La : length (arange 1 (N + 1)) = n).
  { rewrite length_arange. subst n. f_equal. lia. }
  match goal with
  | |- context [DataFrame ?d] => set (df0 := d)
  end.
  assert (R0 : nrows df0 = n) by exact La.
  assert (D0 : DataFrame df0 (mkworld r8.2 f) = (inr df0, mkworld r8.2 f)).
  { apply DataFrame_run. rewrite R0. subst df0.
    cbn [forallb snd col_len].
    rewrite La, L1', L2, L3, L4, L5, L6, L7, L8.
    by rewrite Nat.eqb_refl. }
  step D0.
  step (eq_refl : getitem df0 "UnitsSold" (mkworld r8.2 f)
                  = (inr (IntCol r5.1), mkworld r8.2 f)).
  step (eq_refl : getitem df0 "PricePerUnit" (mkworld r8.2 f)
                  = (inr (FloatCol r6.1), mkworld r8.2 f)).
  unfold series_mul, series_add, series_sub.
  step (arith_int_float Z.mul Float64.mul r5.1 r6.1 (mkworld r8.2 f)
          ltac:(congruence)).
  step (eq_refl : getitem df0 "ShippingCost" (mkworld r8.2 f)
                  = (inr (FloatCol r8.1), mkworld r8.2 f)).
  assert (Lup : length (zip_with Float64.mul (map Float64.of_int r5.1) r6.1) = n).
  { rewrite length_zip_with, length_map. lia. }
  step (arith_float_float Z.add Float64.add _ r8.1 (mkworld r8.2 f)
          (eq_trans Lup (eq_sym L8))).
  set (total := zip_with Float64.add _ r8.1).
  assert (Lt : length total = n).
  { subst total. rewrite length_zip_with. lia. }
  assert (S1 : col_len (FloatCol total) = nrows df0) by (rewrite R0; exact Lt).
  step (setitem_run df0 "TotalAmount" (FloatCol total) (mkworld r8.2 f) S1).
  set (df1 := frame_set df0 "TotalAmount" (FloatCol total)).
  assert (R1 : nrows df1 = n).
  { subst df1. by rewrite nrows_frame_set. }
  step (eq_refl : getitem df1 "TotalAmount" (mkworld r8.2 f)
                  = (inr (FloatCol total), mkworld r8.2 f)).
  step (uniform_run Float64.f0_1 Float64.f0_4 N r8.2 f HN).
  fold n r9.
  step (arith_float_float Z.mul Float64.mul total r9.1 (mkworld r9.2 f)
          ltac:(congruence)).
  step (uniform_run Float64.f0 Float64.f5 N r9.2 f HN).
  fold n r10.
  assert (Ltm : length (zip_with Float64.mul total r9.1) = n).
  { rewrite length_zip_with. lia. }
  step (arith_float_float Z.sub Float64.sub _ r10.1 (mkworld r10.2 f)
          (eq_trans Ltm (eq_sym L10))).
  set (raw := zip_with Float64.sub _ r10.1).
  assert (Lr : length raw = n).
  { subst raw. rewrite length_zip_with. lia. }
  assert (S2 : col_len (FloatCol raw) = nrows df1) by (rewrite R1; exact Lr).
  step (setitem_run df1 "Profit" (FloatCol raw) (mkworld r10.2 f) S2).
  set (df2 := frame_set df1 "Profit" (FloatCol raw)).
  assert (R2 : nrows df2 = n).
  { subst df2. by rewrite nrows_frame_set. }
  step (eq_refl : getitem df2 "Profit" (mkworld r10.2 f)
                  = (inr (FloatCol raw), mkworld r10.2 f)).
  step (eq_refl : series_apply (Float64.py_max Float64.f0_5) (FloatCol raw)
                    (mkworld r10.2 f)
                  = (inr (FloatCol (map (Float64.py_max Float64.f0_5) raw)),
                     mkworld r10.2 f)).
  set (clamped := map (Float64.py_max Float64.f0_5) raw).
  assert (S3 : col_len (FloatCol clamped) = nrows df2).
  { rewrite R2. subst clamped. simpl. by rewrite length_map. }
  step (setitem_run df2 "Profit" (FloatCol clamped) (mkworld r10.2 f) S3).
  set (df3 := frame_set df2 "Profit" (FloatCol clamped)).
  assert (R3 : nrows df3 = n).
  { subst df3. by rewrite nrows_frame_set. }
  step (eq_refl : getitem df3 "Date" (mkworld r10.2 f)
                  = (inr (DateCol ds), mkworld r10.2 f)).
  step (eq_refl : to_datetime (DateCol ds) (mkworld r10.2 f)
                  = (inr (DateCol ds), mkworld r10.2 f)).
  step (eq_refl : dt_strftime_ymd (DateCol ds) (mkworld r10.2 f)
                  = (inr (StrCol (map Datetime.strftime_ymd ds)),
                     mkworld r10.2 f)).
  assert (S4 : col_len (StrCol (map Datetime.strftime_ymd ds)) = nrows df3).
  { rewrite R3. simpl. by rewrite length_map. }
  rewrite (setitem_run df3 "Date" _ (mkworld r10.2 f) S4).
  reflexivity.
Qed.

(** The whole routine on [0 <= N]: the frame is saved under [filename]. *)
Lemma generate_run N filename w :
  0 <= N ->
  exists a, well_drawn (Z.to_nat N) a /\ saved N filename w (assemble N a).
Proof.
  intros HN. destruct (build_frame_run N w HN) as (a & s' & W & E).
  exists a. split; [exact W|]. unfold saved, generate_large_data.
  rewrite (bind_inr _ _ _ _ _ E), E. unfold to_csv. simpl.
  by rewrite lookup_insert_eq.
Qed.

Lemma lookup_map {A B} (g : A -> B) (l : list A) i :
  map g l !! i = g <$> l !! i.
Proof. apply (list_lookup_fmap g l i). Qed.

Lemma lookup_arange lo hi i :
  (i < Z.to_nat (hi - lo))%nat -> arange lo hi !! i = Some (lo + Z.of_nat i).
Proof.
  intros H. unfold arange. rewrite lookup_map, lookup_seq_lt by done. done.
Qed.

Lemma elem_of_arange lo hi x : x ∈ arange lo hi <-> lo <= x < hi.
Proof.
  unfold arange. rewrite list_elem_of_In, in_map_iff. split.
  - intros (i & <- & Hi). apply in_seq in Hi. lia.
  - intros H. exists (Z.to_nat (x - lo)). split; [lia|]. apply in_seq. lia.
Qed.

Lemma NoDup_arange lo hi : NoDup (arange lo hi).
Proof.
  unfold arange.
  assert (Inj eq eq (fun i : nat => lo + Z.of_nat i)) by (intros i j H; lia).
  apply (NoDup_fmap_2 (fun i : nat => lo + Z.of_nat i)), NoDup_seq.
Qed.

Lemma total_of_lookup a i u p s :
  a_units a !! i = Some u -> a_price a !! i = Some p ->
  a_shipping a !! i = Some s ->
  total_of a !! i
  = Some (Float64.add (Float64.mul (Float64.of_int u) p) s).
Proof.
  intros Hu Hp Hs. unfold total_of.
  rewrite !lookup_zip_with, lookup_map, Hu, Hp, Hs. done.
Qed.

Lemma profit_of_lookup a i t m d :
  total_of a !! i = Some t -> a_margin a !! i = Some m ->
  a_deduction a !! i = Some d ->
  profit_of a !! i
  = Some (Float64.py_max Float64.f0_5 (Float64.sub (Float64.mul t m) d)).
Proof.
  intros Ht Hm Hd. unfold profit_of.
  rewrite lookup_map, !lookup_zip_with, Ht, Hm, Hd. done.
Qed.

(** Cells of a well-drawn run at a row index below the count. *)
Lemma lookup_drawn {A} (l : list A) (P : A -> Prop) n i :
  length l = n -> Forall P l -> (i < n)%nat -> exists x, l !! i = Some x /\ P x.
Proof.
  intros L F Hi. destruct (lookup_lt_is_Some_2 l i) as [x Hx]; [lia|].
  exists x. split; [done|]. by apply (Forall_lookup_1 P l i x).
Qed.

(** ** The claims on generated rows *)

(** C1. Determinism: whatever the generator state and the files a run
    starts from, and whatever the file name, the same record count gives
    the same outcome, and on success the same file content byte for
    byte: the output is a function of [N] and the fixed seed 42 alone. *)
Theorem generate_deterministic N filename1 filename2 (w1 w2 : world) :
  output_file N filename1 w1 = output_file N filename2 w2.
Proof.
  destruct (build_frame_seeded N) as (r & s & H).
  assert (E : forall filename w,
             output_file N filename w
             = match r with
               | inr df => inr (Some (csv_text df))
               | inl e => inl e
               end).
  { intros filename w. unfold output_file, generate_large_data.
    destruct r as [e|df].
    - by rewrite (bind_inl _ _ _ _ _ (H w)).
    - rewrite (bind_inr _ _ _ _ _ (H w)). unfold to_csv. simpl.
      by rewrite lookup_insert_eq. }
  by rewrite !E.
Qed.

(** C2. In every generated row, TotalAmount is UnitsSold (converted to
    float64) times PricePerUnit plus ShippingCost, in binary64
    arithmetic, from the cells of the same row. *)
Theorem total_amount_formula N filename (w : world) :
  0 <= N ->
  exists df,
    saved N filename w df
    /\ forall i, (i < Z.to_nat N)%nat ->
         exists u p s,
           int_at df "UnitsSold" i = Some u
           /\ float_at df "PricePerUnit" i = Some p
           /\ float_at df "ShippingCost" i = Some s
           /\ float_at df "TotalAmount" i
              = Some (Float64.add (Float64.mul (Float64.of_int u) p) s).
Proof.
  intros HN. destruct (generate_run N filename w HN) as (a & W & S).
  exists (assemble N a). split; [exact S|]. intros i Hi. destruct W.
  destruct (lookup_drawn _ _ _ i wd_units_len0 wd_units0 Hi) as (u & Hu & _).
  destruct (lookup_drawn _ _ _ i wd_price_len0 wd_price0 Hi) as (p & Hp & _).
  destruct (lookup_drawn _ _ _ i wd_shipping_len0 wd_shipping0 Hi)
    as (sh & Hs & _).
  exists u, p, sh. repeat split; try assumption.
  apply (total_of_lookup a i u p sh Hu Hp Hs).
Qed.


(** C5. The TransactionID column is 1, 2, ..., N in this order: entry
    [i] is [i + 1], there are N entries, no value occurs twice, and the
    values are exactly those from 1 to N. *)
Theorem transaction_ids_contiguous N filename (w : world) :
  0 <= N ->
  exists df ids,
    saved N filename w df
    /\ frame_get df "TransactionID" = Some (IntCol ids)
    /\ Z.of_nat (length ids) = N
    /\ (forall i, (i < Z.to_nat N)%nat -> ids !! i = Some (Z.of_nat i + 1))
    /\ NoDup ids
    /\ (forall x, x ∈ ids <-> 1 <= x <= N).
Proof.
  intros HN. destruct (generate_run N filename w HN) as (a & W & S).
  exists (assemble N a), (arange 1 (N + 1)).
  split; [exact S|]. split; [reflexivity|].
  split; [rewrite length_arange; lia|].
  split; [|split].
  - intros i Hi. rewrite lookup_arange by lia. f_equal. lia.
  - apply NoDup_arange.
  - intros x. rewrite elem_of_arange. lia.
Qed.

(** C8. In every generated row, Region, ProductCategory and
    PaymentMethod each hold a value of their fixed enumeration. *)
Theorem categorical_values_enumerated N filename (w : world) :
  0 <= N ->
  exists df,
    saved N filename w df
    /\ forall i, (i < Z.to_nat N)%nat ->
         exists r c p,
           str_at df "Region" i = Some r
           /\ r ∈ ["North"; "South"; "East"; "West"; "Central"]%string
           /\ str_at df "ProductCategory" i = Some c
           /\ c ∈ ["Electronics"; "Clothing"; "Home Goods"; "Books";
                   "Food"; "Software"; "Services"]%string
           /\ str_at df "PaymentMethod" i = Some p
           /\ p ∈ ["Credit Card"; "Debit Card"; "PayPal";
                   "Bank Transfer"]%string.
Proof.
  intros HN. destruct (generate_run N filename w HN) as (a & W & S).
  exists (assemble N a). split; [exact S|]. intros i Hi. destruct W.
  destruct (lookup_drawn _ _ _ i wd_region_len0 wd_region0 Hi)
    as (r & Hr & Rr).
  destruct (lookup_drawn _ _ _ i wd_category_len0 wd_category0 Hi)
    as (c & Hc & Rc).
  destruct (lookup_drawn _ _ _ i wd_payment_len0 wd_payment0 Hi)
    as (p & Hp & Rp).
  by exists r, c, p.
Qed.

(** C9. In every generated row, CustomerID is an integer in
    [[10000, 99999)], UnitsSold an integer in [[1, 10)], PricePerUnit a
    float in [[5, 1000)] and ShippingCost a float in [[0, 25)]. *)
Theorem numeric_fields_in_range N filename (w : world) :
  0 <= N ->
  exists df,
    saved N filename w df
    /\ forall i, (i < Z.to_nat N)%nat ->
         exists c u p s,
           int_at df "CustomerID" i = Some c /\ 10000 <= c < 99999
           /\ int_at df "UnitsSold" i = Some u /\ 1 <= u < 10
           /\ float_at df "PricePerUnit" i = Some p
           /\ Float64.leb (Float64.of_int 5) p = true
           /\ Float64.ltb p (Float64.of_int 1000) = true
           /\ float_at df "ShippingCost" i = Some s
           /\ Float64.leb Float64.f0 s = true
           /\ Float64.ltb s (Float64.of_int 25) = true.
Proof.
  intros HN. destruct (generate_run N filename w HN) as (a & W & S).
  exists (assemble N a). split; [exact S|]. intros i Hi. destruct W.
  destruct (lookup_drawn _ _ _ i wd_customer_len0 wd_customer0 Hi)
    as (c & Hc & Rc).
  destruct (lookup_drawn _ _ _ i wd_units_len0 wd_units0 Hi)
    as (u & Hu & Ru).
  destruct (lookup_drawn _ _ _ i wd_price_len0 wd_price0 Hi)
    as (p & Hp & [Rp1 Rp2]).
  destruct (lookup_drawn _ _ _ i wd_shipping_len0 wd_shipping0 Hi)
    as (sh & Hs & [Rs1 Rs2]).
  exists c, u, p, sh. repeat split; try assumption; lia.
Qed.

(** *** Dates *)

Lemma window_checked :
  forallb date_in_window (map Z.of_nat (seq 0 1095)) = true.
Proof. vm_compute. reflexivity. Qed.

Lemma date_window k : 0 <= k < 1095 -> date_in_window k = true.
Proof.
  intros Hk. pose proof window_checked as H.
  rewrite forallb_forall in H. apply H.
  apply in_map_iff. exists (Z.to_nat k). split; [lia|].
  apply in_seq. lia.
Qed.


(** *** The CSV text *)

Lemma enum_plain s :
  s ∈ regions ++ product_categories ++ payment_methods ->
  has_char special s = false.
Proof.
  intros H. apply list_elem_of_In in H. simpl in H.
  repeat (destruct H as [<-|H]; [reflexivity|]). done.
Qed.

Lemma render_float_plain x : has_char special (render_float x) = false.
Proof.
  unfold render_float. destruct (Float64.is_nan x); [done|].
  apply float_repr_plain.
Qed.

Lemma nth_map_lookup {A} (g : A -> string) (l : list A) i x :
  l !! i = Some x -> nth i (map g l) EmptyString = g x.
Proof.
  intros H. apply nth_lookup_Some with (d := EmptyString).
  by rewrite lookup_map, H.
Qed.

Lemma csv_lines_length (df : frame) : length (csv_lines df) = S (nrows df).
Proof. unfold csv_lines. simpl. by rewrite length_map, length_seq. Qed.

Lemma csv_lines_row (df : frame) i :
  (i < nrows df)%nat -> csv_lines df !! S i = Some (csv_row df i).
Proof.
  intros H. unfold csv_lines.
  change ((csv_header df :: map (csv_row df) (seq 0 (nrows df))) !! S i)
    with (map (csv_row df) (seq 0 (nrows df)) !! i).
  rewrite lookup_map, lookup_seq_lt by done. done.
Qed.

Lemma nrows_assemble N a : nrows (assemble N a) = Z.to_nat N.
Proof. cbn [nrows assemble col_len]. rewrite length_arange. f_equal. lia. Qed.

(** The line of record [i]: its eleven cells in column order, none of
    which needs quoting. *)
Lemma csv_row_assemble N a i :
  well_drawn (Z.to_nat N) a -> (i < Z.to_nat N)%nat ->
  exists d c r pc u p pm s t pr,
    str_at (assemble N a) "Date" i = Some d
    /\ int_at (assemble N a) "CustomerID" i = Some c
    /\ str_at (assemble N a) "Region" i = Some r
    /\ str_at (assemble N a) "ProductCategory" i = Some pc
    /\ int_at (assemble N a) "UnitsSold" i = Some u
    /\ float_at (assemble N a) "PricePerUnit" i = Some p
    /\ str_at (assemble N a) "PaymentMethod" i = Some pm
    /\ float_at (assemble N a) "ShippingCost" i = Some s
    /\ float_at (assemble N a) "TotalAmount" i = Some t
    /\ float_at (assemble N a) "Profit" i = Some pr
    /\ csv_row (assemble N a) i
       = csv_line [str_of_Z (Z.of_nat i + 1); d; str_of_Z c; r; pc;
                   str_of_Z u; render_float p; pm; render_float s;
                   render_float t; render_float pr]
    /\ count_char LF (csv_row (assemble N a) i) = O.
Proof.
  intros W Hi. destruct W.
  assert (Hid : arange 1 (N + 1) !! i = Some (Z.of_nat i + 1)).
  { rewrite lookup_arange by lia. f_equal. lia. }
  destruct (lookup_drawn _ _ _ i wd_dates_len0 wd_dates0 Hi)
    as (d & Hd & k & Hk & Ek).
  destruct (lookup_drawn _ _ _ i wd_customer_len0 wd_customer0 Hi)
    as (c & Hc & _).
  destruct (lookup_drawn _ _ _ i wd_region_len0 wd_region0 Hi)
    as (r & Hr & Rr).
  destruct (lookup_drawn _ _ _ i wd_category_len0 wd_category0 Hi)
    as (pc & Hpc & Rpc).
  destruct (lookup_drawn _ _ _ i wd_units_len0 wd_units0 Hi)
    as (u & Hu & _).
  destruct (lookup_drawn _ _ _ i wd_price_len0 wd_price0 Hi)
    as (p & Hp & _).
  destruct (lookup_drawn _ _ _ i wd_payment_len0 wd_payment0 Hi)
    as (pm & Hpm & Rpm).
  destruct (lookup_drawn _ _ _ i wd_shipping_len0 wd_shipping0 Hi)
    as (sh & Hs & _).
  destruct (lookup_drawn _ _ _ i wd_margin_len0 wd_margin0 Hi)
    as (m & Hm & _).
  destruct (lookup_drawn _ _ _ i wd_deduction_len0 wd_deduction0 Hi)
    as (de & Hde & _).
  pose proof (total_of_lookup a i u p sh Hu Hp Hs) as Ht.
  set (t := Float64.add (Float64.mul (Float64.of_int u) p) sh) in Ht.
  pose proof (profit_of_lookup a i t m de Ht Hm Hde) as Hpr.
  set (pr := Float64.py_max Float64.f0_5 (Float64.sub (Float64.mul t m) de))
    in Hpr.
  assert (Hds : map Datetime.strftime_ymd (a_dates a) !! i
                = Some (Datetime.strftime_ymd d))
    by (by rewrite lookup_map, Hd).
  assert (Pd : has_char special (Datetime.strftime_ymd d) = false).
  { pose proof (date_window k Hk) as C.
    unfold date_in_window in C. rewrite Ek in C.
    repeat (apply andb_prop in C; destruct C as [C ?]).
    by apply negb_true_iff. }
  assert (Pr : has_char special r = false)
    by (apply enum_plain; rewrite !elem_of_app; auto).
  assert (Ppc : has_char special pc = false)
    by (apply enum_plain; rewrite !elem_of_app; auto).
  assert (Ppm : has_char special pm = false)
    by (apply enum_plain; rewrite !elem_of_app; auto).
  assert (E : csv_row (assemble N a) i
              = csv_line [str_of_Z (Z.of_nat i + 1); Datetime.strftime_ymd d;
                          str_of_Z c; r; pc; str_of_Z u; render_float p; pm;
                          render_float sh; render_float t; render_float pr]).
  { unfold csv_row. cbn [assemble map snd render_col].
    rewrite (nth_map_lookup _ _ i _ Hid), (nth_map_lookup _ _ i _ Hds),
      (nth_map_lookup _ _ i _ Hc), (nth_map_lookup _ _ i _ Hr),
      (nth_map_lookup _ _ i _ Hpc), (nth_map_lookup _ _ i _ Hu),
      (nth_map_lookup _ _ i _ Hp), (nth_map_lookup _ _ i _ Hpm),
      (nth_map_lookup _ _ i _ Hs), (nth_map_lookup _ _ i _ Ht),
      (nth_map_lookup _ _ i _ Hpr).
    by rewrite !(csv_field_plain _ (str_of_Z_plain _)),
      !(csv_field_plain _ (render_float_plain _)),
      (csv_field_plain _ Pd), (csv_field_plain _ Pr),
      (csv_field_plain _ Ppc), (csv_field_plain _ Ppm). }
  exists (Datetime.strftime_ymd d), c, r, pc, u, p, pm, sh, t, pr.
  split; [exact Hds|]. do 9 (split; [assumption|]).
  split; [exact E|]. rewrite E. apply csv_line_no_line_feed.
  repeat constructor;
    auto using str_of_Z_plain, render_float_plain.
Qed.

(** C6. The saved file has exactly N + 1 lines: the header, which lists
    the eleven column names in the order of the data model, then one line
    per record in index order; line [i + 1] holds the cells of record [i]
    in column order, its TransactionID being [i + 1]. *)
Theorem csv_layout N filename (w : world) :
  0 <= N ->
  exists df lines,
    saved N filename w df
    /\ csv_text df = unlines lines
    /\ Z.of_nat (line_count (csv_text df)) = N + 1
    /\ Z.of_nat (length lines) = N + 1
    /\ lines !! 0%nat = Some header_line
    /\ forall i, (i < Z.to_nat N)%nat ->
         exists id d c r pc u p pm s t pr,
           int_at df "TransactionID" i = Some id
           /\ id = Z.of_nat i + 1
           /\ str_at df "Date" i = Some d
           /\ int_at df "CustomerID" i = Some c
           /\ str_at df "Region" i = Some r
           /\ str_at df "ProductCategory" i = Some pc
           /\ int_at df "UnitsSold" i = Some u
           /\ float_at df "PricePerUnit" i = Some p
           /\ str_at df "PaymentMethod" i = Some pm
           /\ float_at df "ShippingCost" i = Some s
           /\ float_at df "TotalAmount" i = Some t
           /\ float_at df "Profit" i = Some pr
           /\ lines !! S i
              = Some (csv_line
                        [str_of_Z id; d; str_of_Z c; r; pc; str_of_Z u;
                         render_float p; pm; render_float s;
                         render_float t; render_float pr]).
Proof.
  intros HN. destruct (generate_run N filename w HN) as (a & W & Sv).
  exists (assemble N a), (csv_lines (assemble N a)).
  assert (L : length (csv_lines (assemble N a)) = S (Z.to_nat N))
    by (by rewrite csv_lines_length, nrows_assemble).
  split; [exact Sv|]. split; [reflexivity|].
  split; [|split; [lia|split; [reflexivity|]]].
  - unfold csv_text. rewrite line_count_unlines; [lia|].
    unfold csv_lines. constructor; [reflexivity|].
    rewrite nrows_assemble. apply Forall_forall. intros l Hl.
    apply list_elem_of_In, in_map_iff in Hl as (i & <- & Hi).
    apply in_seq in Hi.
    destruct (csv_row_assemble N a i W ltac:(lia))
      as (d & c & r & pc & u & p & pm & s & t & pr & H).
    apply H.
  - intros i Hi.
    destruct (csv_row_assemble N a i W Hi)
      as (d & c & r & pc & u & p & pm & s & t & pr
          & Hd & Hc & Hr & Hpc & Hu & Hp & Hpm & Hs & Ht & Hpr & E & _).
    exists (Z.of_nat i + 1), d, c, r, pc, u, p, pm, s, t, pr.
    split.
    { unfold int_at. cbn [assemble frame_get String.eqb Ascii.eqb Bool.eqb].
      rewrite lookup_arange by lia. f_equal. lia. }
    split; [reflexivity|]. do 10 (split; [assumption|]).
    rewrite csv_lines_row by (rewrite nrows_assemble; exact Hi).
    by rewrite E.
Qed.

(** *** Counts below one *)

Lemma py_range_nonpositive N : N <= 0 -> py_range N = [].
Proof.
  intros H. unfold py_range, arange.
  replace (Z.to_nat (N - 0)) with O by lia. done.
Qed.

Lemma randint_size_negative lo hi N w :
  lo < hi -> N < 0 ->
  np_random_randint_size lo hi N w = (inl ValueError, w).
Proof.
  intros H HN. unfold np_random_randint_size, check_size.
  destruct (hi <=? lo) eqn:E; [apply Z.leb_le in E; lia|].
  destruct (N <? 0) eqn:E'; [done|apply Z.ltb_ge in E'; lia].
Qed.

(** On a negative count the loop of line 33 runs zero times and line 39
    raises; nothing has been drawn and no file has been touched. *)
Lemma generate_negative N filename w :
  N < 0 ->
  generate_large_data N filename w
  = (inl ValueError, mkworld (np_seed 42) (files w)).
Proof.
  intros HN. unfold generate_large_data. apply bind_inl.
  unfold build_frame.
  step (eq_refl : np_random_seed 42 w
                  = (inr tt, mkworld (np_seed 42) (files w))).
  rewrite py_range_nonpositive by lia. cbn [for_each].
  step (eq_refl : ret (A := list date) [] (mkworld (np_seed 42) (files w))
                  = (inr [], mkworld (np_seed 42) (files w))).
  apply bind_inl, randint_size_negative; lia.
Qed.

(** On a zero count the run goes through and saves the header alone. *)
Lemma generate_zero filename w :
  (generate_large_data 0 filename w).1 = inr tt
  /\ files (generate_large_data 0 filename w).2 !! filename
     = Some (unlines [header_line]).
Proof.
  destruct (generate_run 0 filename w ltac:(lia)) as (a & _ & _ & E & F).
  split; [exact E|]. rewrite F. reflexivity.
Qed.

(** C4, as the code has it.  The routine does not check its count: a
    negative count fails with numpy's [ValueError] and leaves the files
    as they were, a zero count does not fail and saves a file that holds
    the header line only. *)
Theorem nonpositive_count N filename (w : world) :
  N <= 0 ->
  (N < 0
   /\ (generate_large_data N filename w).1 = inl ValueError
   /\ files (generate_large_data N filename w).2 = files w)
  \/ (N = 0
      /\ (generate_large_data N filename w).1 = inr tt
      /\ files (generate_large_data N filename w).2 !! filename
         = Some (unlines [header_line])).
Proof.
  intros HN. destruct (Z.eq_dec N 0) as [->|Hne].
  - right. split; [done|]. apply generate_zero.
  - left. split; [lia|]. by rewrite generate_negative by lia.
Qed.

(** C10. On a strictly negative count the sized draw of line 39 is
    rejected with [ValueError]; the routine stops there, before the
    save: the files are exactly those it started with.  A zero count
    instead reaches the save and writes the file. *)
Theorem negative_count_raises_before_write N filename (w : world) :
  N < 0 ->
  np_random_randint_size 10000 99999 N (mkworld (np_seed 42) (files w))
  = (inl ValueError, mkworld (np_seed 42) (files w))
  /\ (build_frame N w).1 = inl ValueError
  /\ generate_large_data N filename w
     = (inl ValueError, mkworld (np_seed 42) (files w))
  /\ files (generate_large_data N filename w).2 = files w
  /\ (generate_large_data 0 filename w).1 = inr tt
  /\ is_Some (files (generate_large_data 0 filename w).2 !! filename).
Proof.
  intros HN.
  split; [apply randint_size_negative; lia|].
  pose proof (generate_negative N filename w HN) as G.
  split.
  { unfold generate_large_data, bind in G.
    destruct (build_frame N w) as [[e|df] w']; simpl in *; [congruence|].
    unfold to_csv in G. congruence. }
  split; [exact G|]. split; [by rewrite G|].
  destruct (generate_zero filename w) as [E F].
  split; [exact E|]. by rewrite F.
Qed.

End Runs.

(** ** The model run on concrete inputs *)

(** The scenario of three records: four lines, the first column reading
    TransactionID, 1, 2, 3. *)
Example three_records :
  match (build_frame 3 w_ref).1 with
  | inr df => map first_field (csv_lines df)
  | inl _ => []
  end = ["TransactionID"; "1"; "2"; "3"]%string.
Proof. vm_compute. reflexivity. Qed.

(** The largest offset reaches 2022-12-30, the smallest 2020-01-01. *)
Example window_ends :
  Datetime.add_days start_date 0 = Some (Datetime.mkdate 2020 1 1)
  /\ Datetime.add_days start_date 1094 = Some (Datetime.mkdate 2022 12 30).
Proof. split; reflexivity. Qed.

Lemma total_amount_witness :
  exists df,
    saved 3 "large_synthetic_data.csv" w_ref df
    /\ forall i, (i < Z.to_nat 3)%nat ->
         exists u p s,
           int_at df "UnitsSold" i = Some u
           /\ float_at df "PricePerUnit" i = Some p
           /\ float_at df "ShippingCost" i = Some s
           /\ float_at df "TotalAmount" i
              = Some (Float64.add (Float64.mul (Float64.of_int u) p) s).
Proof. apply (total_amount_formula 3). lia. Defined.


(** At a zero count the routine raises nothing and saves the header-only
    file that C4 excludes. *)
Lemma zero_count_counterexample :
  ~ (exists e,
        (generate_large_data 0 "large_synthetic_data.csv" w_ref).1 = inl e)
  /\ files (generate_large_data 0 "large_synthetic_data.csv" w_ref).2
       !! "large_synthetic_data.csv"%string
     = Some (unlines [header_line]).
Proof.
  split.
  - intros [e H]. vm_compute in H. discriminate.
  - vm_compute. reflexivity.
Qed.

Lemma nonpositive_count_witness :
  (0 < 0
   /\ (generate_large_data 0 "large_synthetic_data.csv" w_ref).1
      = inl ValueError
   /\ files (generate_large_data 0 "large_synthetic_data.csv" w_ref).2
      = files w_ref)
  \/ (0 = 0
      /\ (generate_large_data 0 "large_synthetic_data.csv" w_ref).1 = inr tt
      /\ files (generate_large_data 0 "large_synthetic_data.csv" w_ref).2
           !! "large_synthetic_data.csv"%string
         = Some (unlines [header_line])).
Proof. apply (nonpositive_count 0). lia. Defined.

Lemma transaction_ids_witness :
  exists df ids,
    saved 3 "large_synthetic_data.csv" w_ref df
    /\ frame_get df "TransactionID" = Some (IntCol ids)
    /\ Z.of_nat (length ids) = 3
    /\ (forall i, (i < Z.to_nat 3)%nat -> ids !! i = Some (Z.of_nat i + 1))
    /\ NoDup ids
    /\ (forall x, x ∈ ids <-> 1 <= x <= 3).
Proof. apply (transaction_ids_contiguous 3). lia. Defined.

Lemma csv_layout_witness :
  exists df lines,
    saved 3 "large_synthetic_data.csv" w_ref df
    /\ csv_text df = unlines lines
    /\ Z.of_nat (line_count (csv_text df)) = 3 + 1
    /\ Z.of_nat (length lines) = 3 + 1
    /\ lines !! 0%nat = Some header_line
    /\ forall i, (i < Z.to_nat 3)%nat ->
         exists id d c r pc u p pm s t pr,
           int_at df "TransactionID" i = Some id
           /\ id = Z.of_nat i + 1
           /\ str_at df "Date" i = Some d
           /\ int_at df "CustomerID" i = Some c
           /\ str_at df "Region" i = Some r
           /\ str_at df "ProductCategory" i = Some pc
           /\ int_at df "UnitsSold" i = Some u
           /\ float_at df "PricePerUnit" i = Some p
           /\ str_at df "PaymentMethod" i = Some pm
           /\ float_at df "ShippingCost" i = Some s
           /\ float_at df "TotalAmount" i = Some t
           /\ float_at df "Profit" i = Some pr
           /\ lines !! S i
              = Some (csv_line
                        [str_of_Z id; d; str_of_Z c; r; pc; str_of_Z u;
                         render_float p; pm; render_float s;
                         render_float t; render_float pr]).
Proof. apply (csv_layout 3). lia. Defined.


Lemma categorical_witness :
  exists df,
    saved 3 "large_synthetic_data.csv" w_ref df
    /\ forall i, (i < Z.to_nat 3)%nat ->
         exists r c p,
           str_at df "Region" i = Some r
           /\ r ∈ ["North"; "South"; "East"; "West"; "Central"]%string
           /\ str_at df "ProductCategory" i = Some c
           /\ c ∈ ["Electronics"; "Clothing"; "Home Goods"; "Books";
                   "Food"; "Software"; "Services"]%string
           /\ str_at df "PaymentMethod" i = Some p
           /\ p ∈ ["Credit Card"; "Debit Card"; "PayPal";
                   "Bank Transfer"]%string.
Proof. apply (categorical_values_enumerated 3). lia. Defined.

Lemma numeric_witness :
  exists df,
    saved 3 "large_synthetic_data.csv" w_ref df
    /\ forall i, (i < Z.to_nat 3)%nat ->
         exists c u p s,
           int_at df "CustomerID" i = Some c /\ 10000 <= c < 99999
           /\ int_at df "UnitsSold" i = Some u /\ 1 <= u < 10
           /\ float_at df "PricePerUnit" i = Some p
           /\ Float64.leb (Float64.of_int 5) p = true
           /\ Float64.ltb p (Float64.of_int 1000) = true
           /\ float_at df "ShippingCost" i = Some s
           /\ Float64.leb Float64.f0 s = true
           /\ Float64.ltb s (Float64.of_int 25) = true.
Proof. apply (numeric_fields_in_range 3). lia. Defined.

Lemma negative_count_witness :
  np_random_randint_size 10000 99999 (-1)
    (mkworld (np_seed 42) (files w_ref))
  = (inl ValueError, mkworld (np_seed 42) (files w_ref))
  /\ (build_frame (-1) w_ref).1 = inl ValueError
  /\ generate_large_data (-1) "large_synthetic_data.csv" w_ref
     = (inl ValueError, mkworld (np_seed 42) (files w_ref))
  /\ files (generate_large_data (-1) "large_synthetic_data.csv" w_ref).2
     = files w_ref
  /\ (generate_large_data 0 "large_synthetic_data.csv" w_ref).1 = inr tt
  /\ is_Some (files (generate_large_data 0 "large_synthetic_data.csv" w_ref).2
                !! "large_synthetic_data.csv"%string).
Proof. apply (negative_count_raises_before_write (-1)). lia. Defined.

(** * Further properties of [generate_large_data] *)

(** ** Rounding never invents a NaN *)

Lemma iter_pos_invariant {A} (P : A -> Prop) (f : A -> A) :
  (forall x, P x -> P (f x)) -> forall n x, P x -> P (SpecFloat.iter_pos f n x).
Proof.
  intros Hf. induction n as [n IH|n IH|]; intros x Hx; simpl; auto.
Qed.

Lemma shr_1_nonneg mrs : 0 <= shr_m mrs -> 0 <= shr_m (shr_1 mrs).
Proof.
  destruct mrs as [m r s]. destruct m as [|p|p]; simpl; [lia| |lia].
  destruct p; simpl; lia.
Qed.

Lemma shr_fexp_nonneg m e l :
  0 <= m -> 0 <= shr_m (shr_fexp Float64.prec Float64.emax m e l).1.
Proof.
  intros Hm. unfold shr_fexp, shr.
  assert (H0 : 0 <= shr_m (shr_record_of_loc m l))
    by (destruct l as [|[]]; exact Hm).
  match goal with |- context [match ?n with _ => _ end] => destruct n end;
    simpl; try exact H0.
  apply (iter_pos_invariant (fun x => 0 <= shr_m x)); [|exact H0].
  apply shr_1_nonneg.
Qed.

Lemma round_nearest_even_nonneg m l : 0 <= m -> 0 <= round_nearest_even m l.
Proof.
  intros Hm. unfold round_nearest_even.
  destruct l as [|[]]; try destruct (Z.even m); lia.
Qed.

(** Rounding a non-negative mantissa gives a zero, a finite value or an
    infinity of the given sign. *)
Lemma binary_round_aux_shape sx mx ex lx :
  0 <= mx ->
  match binary_round_aux Float64.prec Float64.emax sx mx ex lx with
  | S754_zero s | S754_infinity s | S754_finite s _ _ => s = sx
  | S754_nan => False
  end.
Proof.
  intros Hm. unfold binary_round_aux.
  pose proof (shr_fexp_nonneg mx ex lx Hm) as H1.
  destruct (shr_fexp Float64.prec Float64.emax mx ex lx) as [mrs' e'].
  simpl in H1.
  pose proof (shr_fexp_nonneg
                (round_nearest_even (shr_m mrs') (loc_of_shr_record mrs'))
                e' loc_Exact (round_nearest_even_nonneg _ _ H1)) as H2.
  destruct (shr_fexp Float64.prec Float64.emax _ e' loc_Exact) as [mrs'' e''].
  simpl in H2. destruct (shr_m mrs''); [done| |lia].
  by destruct (e'' <=? Float64.emax - Float64.prec).
Qed.

Lemma mul_positive_not_nan x y :
  positive_float x -> positive_float y ->
  match Float64.mul x y with
  | S754_zero s | S754_infinity s | S754_finite s _ _ => s = false
  | S754_nan => False
  end.
Proof.
  intros (mx & ex & ->) (my & ey & ->). unfold Float64.mul, SFmul.
  apply (binary_round_aux_shape false). lia.
Qed.

Lemma add_nonneg_not_nan x y :
  match x with
  | S754_zero s | S754_infinity s | S754_finite s _ _ => s = false
  | S754_nan => False
  end ->
  nonneg_float y -> Float64.is_nan (Float64.add x y) = false.
Proof.
  intros Hx [[s ->]|(my & ey & ->)]; destruct x as [sx|sx| |sx mx ex];
    try done; subst sx; try (by destruct s).
  unfold Float64.add, SFadd, cond_Zopp, binary_normalize.
  match goal with
  | |- context [(Z.pos ?a + Z.pos ?b)%Z] =>
      change (Z.pos a + Z.pos b) with (Z.pos (a + b))
  end.
  unfold binary_round.
  destruct (shl_align _ _ _) as [mz ez].
  pose proof (binary_round_aux_shape false (Z.pos mz) ez loc_Exact ltac:(lia)).
  by destruct (binary_round_aux _ _ _ _ _ _).
Qed.

Lemma in_range_not_nan lo hi x : in_range lo hi x -> Float64.is_nan x = false.
Proof. intros [_ H]. by destruct x. Qed.

Lemma price_positive p :
  in_range Float64.f5 Float64.f1000 p -> positive_float p.
Proof.
  intros [H1 H2]. destruct p as [s|[]| |[] m e]; try discriminate.
  by exists m, e.
Qed.

Lemma shipping_nonneg s :
  in_range Float64.f0 Float64.f25 s -> nonneg_float s.
Proof.
  intros [H1 H2]. destruct s as [s|[]| |[] m e]; try discriminate.
  - left. by exists s.
  - right. by exists m, e.
Qed.

Lemma units_positive u : 1 <= u < 10 -> positive_float (Float64.of_int u).
Proof.
  intros H.
  assert (u = 1 \/ u = 2 \/ u = 3 \/ u = 4 \/ u = 5 \/ u = 6 \/ u = 7
          \/ u = 8 \/ u = 9) as Hu by lia.
  repeat (destruct Hu as [->|Hu]; [eexists _, _; vm_compute; reflexivity|]).
  subst u. eexists _, _. vm_compute. reflexivity.
Qed.

Lemma py_max_not_nan a b :
  Float64.is_nan a = false -> Float64.is_nan (Float64.py_max a b) = false.
Proof.
  intros Ha. unfold Float64.py_max. destruct (Float64.ltb a b) eqn:E; [|done].
  destruct b; try done. by destruct a.
Qed.

(** ** Text of integers and of lines *)

(** A property of characters that no digit has is one no natural number's
    text has. *)
Lemma pretty_N_go_chars (p : ascii -> bool) x s :
  (forall d, p (pretty_N_char d) = false) ->
  has_char p s = false -> has_char p (pretty_N_go x s) = false.
Proof.
  intros Hp. revert s. induction (N.lt_wf_0 x) as [x _ IH]; intros s Hs.
  assert (x = 0 \/ 0 < x)%N as [->|Hx] by lia.
  - by rewrite pretty_N_go_0.
  - rewrite pretty_N_go_step by done. apply IH.
    + by apply N.div_lt.
    + cbn [has_char]. by rewrite Hs, Hp.
Qed.

Lemma str_of_Z_no_letter_T z :
  0 <= z -> has_char (Ascii.eqb "T") (str_of_Z z) = false.
Proof.
  intros Hz. unfold str_of_Z, pretty, pretty_Z.
  destruct z as [|q|q]; [done| |lia].
  unfold pretty, pretty_positive, pretty, pretty_N.
  case_decide; [done|]. apply pretty_N_go_chars; [|done].
  intros d. unfold pretty_N_char. by repeat case_match.
Qed.

Lemma plain_count c s :
  special c = true -> has_char special s = false -> count_char c s = O.
Proof.
  intros Hc. induction s as [|c' s IH]; simpl; [done|]. intros H.
  apply orb_false_elim in H as [Hc' Hs]. rewrite (IH Hs).
  destruct (Ascii.eqb_spec c' c) as [->|]; [congruence|done].
Qed.

(** A line of [n] fields without commas holds [n - 1] commas. *)
Lemma csv_line_commas fields :
  Forall (fun c => has_char special c = false) fields ->
  count_char COMMA (csv_line fields) = Nat.pred (length fields).
Proof.
  unfold csv_line. induction 1 as [|c r Hc Hr IH]; [done|].
  destruct r as [|c' r'].
  - simpl. by apply plain_count.
  - change (String.concat (String COMMA EmptyString) (c :: c' :: r'))
      with (c +:+ String COMMA (String.concat (String COMMA EmptyString)
                                              (c' :: r'))).
    rewrite count_char_app, (plain_count COMMA c eq_refl Hc).
    cbn [count_char]. rewrite IH. reflexivity.
Qed.

Lemma csv_line_no_quote fields :
  Forall (fun c => has_char special c = false) fields ->
  count_char QUOTE (csv_line fields) = O.
Proof.
  unfold csv_line. induction 1 as [|c r Hc Hr IH]; [done|].
  destruct r as [|c' r'].
  - simpl. by apply plain_count.
  - change (String.concat (String COMMA EmptyString) (c :: c' :: r'))
      with (c +:+ String COMMA (String.concat (String COMMA EmptyString)
                                              (c' :: r'))).
    rewrite count_char_app, (plain_count QUOTE c eq_refl Hc).
    cbn [count_char]. rewrite IH. reflexivity.
Qed.

Lemma first_field_app a b :
  has_char special a = false ->
  first_field (a +:+ String COMMA b) = a.
Proof.
  induction a as [|c a IH]; simpl; [done|]. intros H.
  apply orb_false_elim in H as [Hc Ha]. rewrite (IH Ha).
  unfold special in Hc. repeat (apply orb_false_elim in Hc as [Hc ?]).
  by rewrite Hc.
Qed.

(** The first field of a line of two or more fields is read back. *)
Lemma first_field_csv_line a b rest :
  has_char special a = false -> first_field (csv_line (a :: b :: rest)) = a.
Proof. intros H. unfold csv_line. simpl. by apply first_field_app. Qed.

(** ** What a run does to the world around it *)

Section Surroundings.
Context `{NR : NumpyRandom} `{FR : FloatRepr}.

(** A run either raises and leaves the files alone, or replaces the one
    file; which of the two, the frame and the generator state reached are
    settled by the count. *)
Lemma generate_seeded N :
  exists (r : exn + frame) s,
    forall filename w,
      generate_large_data N filename w
      = match r with
        | inl e => (inl e, mkworld s (files w))
        | inr df =>
            (inr tt, mkworld s (<[filename := csv_text df]> (files w)))
        end.
Proof.
  destruct (build_frame_seeded N) as (r & s & H). exists r, s.
  intros filename w. unfold generate_large_data. destruct r as [e|df].
  - by rewrite (bind_inl _ _ _ _ _ (H w)).
  - by rewrite (bind_inr _ _ _ _ _ (H w)).
Qed.

(** X1. Whatever the count, a run changes no file but the one it is asked
    to write: every other path holds after the run what it held before. *)
Theorem other_files_untouched N filename path (w : world) :
  path <> filename ->
  files (generate_large_data N filename w).2 !! path = files w !! path.
Proof.
  intros Hne. destruct (generate_seeded N) as (r & s & H).
  rewrite H. destruct r as [e|df]; simpl; [done|].
  by rewrite lookup_insert_ne.
Qed.

(** X2. A run leaves numpy's global generator in a state settled by the
    count alone: whatever the caller had drawn or seeded before is gone,
    and what is drawn after the run no longer depends on it. *)
Theorem generator_state_after_run N filename1 filename2 (w1 w2 : world) :
  np_state (generate_large_data N filename1 w1).2
  = np_state (generate_large_data N filename2 w2).2.
Proof.
  destruct (generate_seeded N) as (r & s & H).
  rewrite !H. by destruct r.
Qed.

(** X3. Running the routine a second time with the same arguments changes
    nothing: same outcome, same generator state, same files. *)
Theorem rerun_changes_nothing N filename (w : world) :
  generate_large_data N filename (generate_large_data N filename w).2
  = generate_large_data N filename w.
Proof.
  destruct (generate_seeded N) as (r & s & H).
  rewrite !H. destruct r as [e|df]; simpl; [done|].
  by rewrite insert_insert_eq.
Qed.

(** The cells of record [i] as they are written, none of which holds a
    comma, a quote or a line break. *)
Lemma csv_row_cells N a i :
  well_drawn (Z.to_nat N) a -> (i < Z.to_nat N)%nat ->
  exists rest,
    length rest = 10%nat
    /\ Forall (fun c => has_char special c = false)
              (str_of_Z (Z.of_nat i + 1) :: rest)
    /\ csv_row (assemble N a) i = csv_line (str_of_Z (Z.of_nat i + 1) :: rest).
Proof.
  intros W Hi.
  destruct (csv_row_assemble N a i W Hi)
    as (d & c & r & pc & u & p & pm & s & t & pr
        & Hd & Hc & Hr & Hpc & Hu & Hp & Hpm & Hs & Ht & Hpr & E & _).
  exists [d; str_of_Z c; r; pc; str_of_Z u; render_float p; pm;
          render_float s; render_float t; render_float pr].
  split; [done|]. split; [|exact E]. destruct W.
  unfold str_at in Hd, Hr, Hpc, Hpm.
  cbn [assemble frame_get String.eqb Ascii.eqb Bool.eqb] in Hd, Hr, Hpc, Hpm.
  rewrite lookup_map in Hd. apply fmap_Some in Hd as (d0 & Hd0 & ->).
  pose proof (Forall_lookup_1 _ _ _ _ wd_dates0 Hd0) as (k & Hk & Ek).
  pose proof (Forall_lookup_1 _ _ _ _ wd_region0 Hr) as Rr.
  pose proof (Forall_lookup_1 _ _ _ _ wd_category0 Hpc) as Rpc.
  pose proof (Forall_lookup_1 _ _ _ _ wd_payment0 Hpm) as Rpm.
  assert (Pd : has_char special (Datetime.strftime_ymd d0) = false).
  { pose proof (date_window k Hk) as C.
    unfold date_in_window in C. rewrite Ek in C.
    repeat (apply andb_prop in C; destruct C as [C ?]).
    by apply negb_true_iff. }
  repeat constructor;
    auto using str_of_Z_plain, render_float_plain;
    apply enum_plain; rewrite !elem_of_app; auto.
Qed.

End Surroundings.

(** ** The shape of the saved file *)

Section FileShape.
Context `{NR : NumpyRandom} `{FR : FloatRepr}.

(** X4. No float cell of a generated row is a NaN: PricePerUnit,
    ShippingCost, TotalAmount and Profit are all numbers, so [to_csv]
    never writes the empty text it keeps for a missing value. *)
Theorem float_cells_are_numbers N filename (w : world) :
  0 <= N ->
  exists df,
    saved N filename w df
    /\ forall i, (i < Z.to_nat N)%nat ->
         exists p s t pr,
           float_at df "PricePerUnit" i = Some p
           /\ float_at df "ShippingCost" i = Some s
           /\ float_at df "TotalAmount" i = Some t
           /\ float_at df "Profit" i = Some pr
           /\ Forall (fun x => Float64.is_nan x = false
                               /\ render_float x = float_repr x)
                     [p; s; t; pr].
Proof.
  intros HN. destruct (generate_run N filename w HN) as (a & W & Sv).
  exists (assemble N a). split; [exact Sv|]. intros i Hi. destruct W.
  destruct (lookup_drawn _ _ _ i wd_units_len0 wd_units0 Hi) as (u & Hu & Ru).
  destruct (lookup_drawn _ _ _ i wd_price_len0 wd_price0 Hi) as (p & Hp & Rp).
  destruct (lookup_drawn _ _ _ i wd_shipping_len0 wd_shipping0 Hi)
    as (sh & Hs & Rs).
  destruct (lookup_drawn _ _ _ i wd_margin_len0 wd_margin0 Hi)
    as (m & Hm & _).
  destruct (lookup_drawn _ _ _ i wd_deduction_len0 wd_deduction0 Hi)
    as (d & Hd & _).
  pose proof (total_of_lookup a i u p sh Hu Hp Hs) as Ht.
  pose proof (profit_of_lookup a i _ m d Ht Hm Hd) as Hpr.
  eexists p, sh, _, _.
  split; [exact Hp|]. split; [exact Hs|]. split; [exact Ht|].
  split; [exact Hpr|].
  assert (Np : Float64.is_nan p = false) by apply (in_range_not_nan _ _ _ Rp).
  assert (Ns : Float64.is_nan sh = false) by apply (in_range_not_nan _ _ _ Rs).
  assert (Nt : Float64.is_nan
                 (Float64.add (Float64.mul (Float64.of_int u) p) sh) = false).
  { apply add_nonneg_not_nan; [|by apply shipping_nonneg].
    apply mul_positive_not_nan; [by apply units_positive|].
    by apply price_positive. }
  assert (Npr : forall x, Float64.is_nan (Float64.py_max Float64.f0_5 x) = false)
    by (intros x; by apply py_max_not_nan).
  unfold render_float.
  repeat constructor; try assumption; try apply Npr;
    by rewrite ?Np, ?Ns, ?Nt, ?Npr.
Qed.

(** X5. Every line of the saved file, the header included, holds exactly
    ten commas and neither a quote nor a line break, so that splitting it
    at the commas gives eleven fields. *)
Theorem lines_have_eleven_fields N filename (w : world) :
  0 <= N ->
  exists df,
    saved N filename w df
    /\ Forall (fun l => count_char COMMA l = 10%nat
                        /\ count_char QUOTE l = O
                        /\ count_char LF l = O)
              (csv_lines df).
Proof.
  intros HN. destruct (generate_run N filename w HN) as (a & W & Sv).
  exists (assemble N a). split; [exact Sv|].
  unfold csv_lines. constructor; [by vm_compute|].
  rewrite nrows_assemble. apply Forall_forall. intros l Hl.
  apply list_elem_of_In, in_map_iff in Hl as (i & <- & Hi).
  apply in_seq in Hi.
  destruct (csv_row_cells N a i W ltac:(lia)) as (rest & L & P & ->).
  rewrite (csv_line_commas _ P), (csv_line_no_quote _ P),
    (csv_line_no_line_feed _ P).
  simpl. by rewrite L.
Qed.

(** X6. Each data line of the saved file begins with its record number,
    which can be read back as the text before the first comma; hence no
    two lines of the file are equal. *)
Theorem lines_led_by_record_number N filename (w : world) :
  0 <= N ->
  exists df,
    saved N filename w df
    /\ (forall i, (i < Z.to_nat N)%nat ->
          exists l, csv_lines df !! S i = Some l
                    /\ first_field l = str_of_Z (Z.of_nat i + 1))
    /\ NoDup (csv_lines df).
Proof.
  intros HN. destruct (generate_run N filename w HN) as (a & W & Sv).
  exists (assemble N a). split; [exact Sv|].
  assert (F : forall i, (i < Z.to_nat N)%nat ->
                first_field (csv_row (assemble N a) i)
                = str_of_Z (Z.of_nat i + 1)).
  { intros i Hi. destruct (csv_row_cells N a i W Hi) as (rest & L & P & ->).
    destruct rest as [|b rest]; [done|].
    apply first_field_csv_line. by inversion P. }
  split.
  - intros i Hi. exists (csv_row (assemble N a) i). split; [|by apply F].
    apply csv_lines_row. by rewrite nrows_assemble.
  - apply (NoDup_fmap_1 first_field). unfold csv_lines.
    rewrite nrows_assemble, fmap_cons.
    change (map (csv_row (assemble N a)) (seq 0 (Z.to_nat N)))
      with (csv_row (assemble N a) <$> seq 0 (Z.to_nat N)).
    rewrite <- list_fmap_compose.
    assert (E : (first_field ∘ csv_row (assemble N a)) <$> seq 0 (Z.to_nat N)
                = (fun i : nat => str_of_Z (Z.of_nat i + 1))
                    <$> seq 0 (Z.to_nat N)).
    { apply list_fmap_ext. intros j i Hj. apply lookup_seq in Hj as [-> Hj].
      apply F. lia. }
    rewrite E. constructor.
    + intros Hin. apply list_elem_of_fmap in Hin as (i & Hi & _).
      pose proof (str_of_Z_no_letter_T (Z.of_nat i + 1) ltac:(lia)) as T.
      rewrite <- Hi in T. vm_compute in T. discriminate.
    + apply NoDup_fmap_2; [|apply NoDup_seq].
      intros i j Hij. apply (inj pretty) in Hij. lia.
Qed.

End FileShape.

(** * Properties of the report text *)

(** ** [str.replace] on patterns led by a character of their own *)

Lemma prefix_nil s : String.prefix EmptyString s = true.
Proof. by destruct s. Qed.

Lemma prefix_cons a p b s :
  String.prefix (String a p) (String b s) = Ascii.eqb a b && String.prefix p s.
Proof.
  simpl. destruct (ascii_dec a b) as [->|Hne].
  - by rewrite Ascii.eqb_refl.
  - by apply Ascii.eqb_neq in Hne as ->.
Qed.

Lemma has_sub_cons p c s :
  has_sub p (String c s) = String.prefix p (String c s) || has_sub p s.
Proof. reflexivity. Qed.

Section Replace.
Variables (a : ascii) (old' new' : string).
Let old := String a old'.
Let new := String a new'.

(** What the replacement copies is found where it was. *)
Lemma replace_go_copied q s :
  has_char (Ascii.eqb a) q = false ->
  String.prefix q (replace_go old new O s) = true ->
  String.prefix q s = true.
Proof.
  revert s. induction q as [|b q IH]; intros s Hq H.
  - apply prefix_nil.
  - cbn [has_char] in Hq. apply orb_false_elim in Hq as [Hb Hq].
    destruct s as [|c r]; [done|]. cbn [replace_go] in H.
    destruct (String.prefix old (String c r)).
    + change (new +:+ ?X) with (String a (new' +:+ X)) in H.
      rewrite prefix_cons, Ascii.eqb_sym, Hb in H. done.
    + rewrite prefix_cons in H |- *.
      apply andb_prop in H as [-> H]. by rewrite (IH r Hq H).
Qed.

Section Pattern.
(** A pattern with the same leading character, which occurs nowhere else
    in it nor in the replacement, and which the replacement does not
    start. *)
Variable q' : string.
Let q := String a q'.
Hypothesis Hq' : has_char (Ascii.eqb a) q' = false.
Hypothesis Hnew' : has_char (Ascii.eqb a) new' = false.
Hypothesis Hmis : forall X, String.prefix q (new +:+ X) = false.

Lemma has_sub_skip n X :
  has_char (Ascii.eqb a) n = false -> has_sub q (n +:+ X) = has_sub q X.
Proof.
  induction n as [|b n IH]; [done|]. cbn [has_char]. intros H.
  apply orb_false_elim in H as [Hb Hn].
  change (String b n +:+ X) with (String b (n +:+ X)).
  rewrite has_sub_cons. unfold q at 1. rewrite prefix_cons, Hb. by apply IH.
Qed.

Lemma replace_go_keeps_absent s k :
  has_sub q s = false -> has_sub q (replace_go old new k s) = false.
Proof.
  revert k. induction s as [|c r IH]; intros k H; [done|].
  rewrite has_sub_cons in H. apply orb_false_elim in H as [Hp Hr].
  destruct k as [|k]; cbn [replace_go]; [|by apply IH].
  destruct (String.prefix old (String c r)) eqn:E.
  - change (new +:+ ?X) with (String a (new' +:+ X)).
    rewrite has_sub_cons.
    change (String a (new' +:+ ?X)) with (new +:+ X).
    rewrite Hmis, has_sub_skip by done. by apply IH.
  - rewrite has_sub_cons, (IH _ Hr), orb_false_r.
    destruct (String.prefix q (String c (replace_go old new 0 r))) eqn:F;
      [|done].
    unfold q in F, Hp. rewrite prefix_cons in F, Hp.
    apply andb_prop in F as [Fa F].
    rewrite Fa, (replace_go_copied q' r Hq' F) in Hp. done.
Qed.

End Pattern.

(** When the leading character occurs nowhere else in pattern or
    replacement and the replacement does not start with the pattern, no
    occurrence of the pattern is left. *)
Lemma replace_go_removes s k :
  has_char (Ascii.eqb a) old' = false ->
  has_char (Ascii.eqb a) new' = false ->
  (forall X, String.prefix old (new +:+ X) = false) ->
  has_sub old (replace_go old new k s) = false.
Proof.
  intros Hold Hnew Hmis. revert k.
  induction s as [|c r IH]; intros k; [done|].
  destruct k as [|k]; cbn [replace_go]; [|by apply IH].
  destruct (String.prefix old (String c r)) eqn:E.
  - change (new +:+ ?X) with (String a (new' +:+ X)).
    rewrite has_sub_cons.
    change (String a (new' +:+ ?X)) with (new +:+ X).
    rewrite Hmis, (has_sub_skip old') by done. by apply IH.
  - rewrite has_sub_cons, IH, orb_false_r.
    destruct (String.prefix old (String c (replace_go old new 0 r))) eqn:F;
      [|done].
    unfold old in F, E. rewrite prefix_cons in F, E.
    apply andb_prop in F as [Fa F].
    rewrite Fa, (replace_go_copied old' r Hold F) in E. done.
Qed.

End Replace.

(** A text without the pattern is returned as it is. *)
Lemma replace_go_absent old new s :
  has_sub old s = false -> replace_go old new O s = s.
Proof.
  induction s as [|c r IH]; [done|]. rewrite has_sub_cons. intros H.
  apply orb_false_elim in H as [Hp Hr]. cbn [replace_go].
  by rewrite Hp, (IH Hr).
Qed.

(** ** The styling of the tables *)

(** X7. However a table renders, its styled text holds no bare [<th>] and
    no bare [<td>]: every header cell and data cell carries the padding
    style. *)
Theorem styled_table_has_no_bare_cell (html : string) :
  has_sub "<th>" (style_table html) = false
  /\ has_sub "<td>" (style_table html) = false.
Proof.
  unfold style_table, str_replace.
  set (u := replace_go "<table" TABLE_STYLED 0 html).
  assert (Hth : has_sub "<th>" (replace_go "<th>" TH_STYLED 0 u) = false).
  { apply (replace_go_removes
             "<" "th>" ("th style=" +:+ quoted "padding: 5px;" +:+ ">"));
      [reflexivity|reflexivity|]. intros X. reflexivity. }
  split.
  - apply (replace_go_keeps_absent
             "<" "td>" ("td style=" +:+ quoted "padding: 5px;" +:+ ">") "th>");
      [reflexivity|reflexivity| |exact Hth]. intros X. reflexivity.
  - apply (replace_go_removes
             "<" "td>" ("td style=" +:+ quoted "padding: 5px;" +:+ ">"));
      [reflexivity|reflexivity|]. intros X. reflexivity.
Qed.

(** X8. A text that holds none of [<table], [<th>] and [<td>] is left as
    it is by the styling. *)
Theorem style_table_without_tags (html : string) :
  has_sub "<table" html = false ->
  has_sub "<th>" html = false ->
  has_sub "<td>" html = false ->
  style_table html = html.
Proof.
  intros H1 H2 H3. unfold style_table, str_replace.
  by rewrite (replace_go_absent _ _ _ H1), (replace_go_absent _ _ _ H2),
    (replace_go_absent _ _ _ H3).
Qed.

Example style_table_example :
  style_table "<table><tr><th>Region</th></tr><tr><td>North</td></tr></table>"
  = ("<table border=" +:+ quoted "1" +:+ "><tr><th style="
     +:+ quoted "padding: 5px;" +:+ ">Region</th></tr><tr><td style="
     +:+ quoted "padding: 5px;" +:+ ">North</td></tr></table>").
Proof. vm_compute. reflexivity. Qed.

Example str_replace_examples :
  str_replace "aaa" "aa" "b" = "ba"%string
  /\ str_replace "abc" "" "-" = "-a-b-c-"%string
  /\ str_replace "" "x" "y" = ""%string.
Proof. repeat split; vm_compute; reflexivity. Qed.

Lemma style_table_without_tags_witness :
  style_table "Empty DataFrame" = "Empty DataFrame"%string.
Proof. apply style_table_without_tags; reflexivity. Defined.

(** * Properties of [analyze_big_data] *)


Section AnalysisRuns.
Context `{NR : NumpyRandom} `{FR : FloatRepr} `{SE : SparkEngine}.

Lemma pbind_inr {A B} (m : P A) (k : A -> P B) p a p' :
  m p = (inr a, p') -> pbind m k p = k a p'.
Proof. intros H. unfold pbind. by rewrite H. Qed.

Lemma pbind_inl {A B} (m : P A) (k : A -> P B) p e p' :
  m p = (inl e, p') -> pbind m k p = (inl e, p').
Proof. intros H. unfold pbind. by rewrite H. Qed.

(** ** What is left alone *)

(** A computation that leaves the Python side, the files included, as it
    found it. *)
Definition keeps_py {A} (m : P A) : Prop := forall p, py (m p).2 = py p.

(** A computation that writes no file but [r] and leaves numpy alone. *)
Definition writes_only (r : string) {A} (m : P A) : Prop :=
  forall p,
    np_state (py (m p).2) = np_state (py p)
    /\ forall path, path <> r -> disk (m p).2 !! path = disk p !! path.

Lemma keeps_py_pret {A} (a : A) : keeps_py (pret a).
Proof. by intros p. Qed.

Lemma keeps_py_praise {A} e : keeps_py (praise (A := A) e).
Proof. by intros p. Qed.

Lemma keeps_py_call {A} f : keeps_py (call (A := A) f).
Proof. by intros p. Qed.

Lemma keeps_py_pbind {A B} (m : P A) (k : A -> P B) :
  keeps_py m -> (forall a, keeps_py (k a)) -> keeps_py (pbind m k).
Proof.
  intros Hm Hk p. unfold pbind. specialize (Hm p).
  destruct (m p) as [[e|a] p1]; simpl in *; [done|].
  by rewrite (Hk a p1).
Qed.

Lemma keeps_py_try {A} (body : P A) handler :
  keeps_py body -> (forall n, keeps_py (handler n)) ->
  keeps_py (try_except body handler).
Proof.
  intros Hb Hh p. unfold try_except. specialize (Hb p).
  destruct (body p) as [[[n|]|a] p1]; simpl in *; try done.
  by rewrite (Hh n p1).
Qed.

Lemma keeps_py_styled html : keeps_py (styled html).
Proof. destruct html; [apply keeps_py_pret|apply keeps_py_praise]. Qed.

Ltac keeps :=
  repeat first
    [ apply keeps_py_pret | apply keeps_py_praise | apply keeps_py_call
    | apply keeps_py_styled
    | apply keeps_py_pbind; [|intros] ].

(** Loading and querying go through the engine only. *)
Lemma keeps_py_load d : keeps_py (load_data d).
Proof. unfold load_data. keeps. Qed.

Lemma keeps_py_insights df : keeps_py (run_insights df).
Proof. unfold run_insights. keeps. Qed.

Lemma writes_only_keeps r {A} (m : P A) : keeps_py m -> writes_only r m.
Proof. intros H p. unfold disk. by rewrite (H p). Qed.

Lemma writes_only_pbind r {A B} (m : P A) (k : A -> P B) :
  writes_only r m -> (forall a, writes_only r (k a)) ->
  writes_only r (pbind m k).
Proof.
  intros Hm Hk p. unfold pbind. destruct (Hm p) as [H1 H2].
  destruct (m p) as [[e|a] p1]; simpl in *; [done|].
  destruct (Hk a p1) as [H3 H4]. split; [congruence|].
  intros path Hne. by rewrite H4, H2.
Qed.

Lemma writes_only_open r : writes_only r (open_w r).
Proof.
  intros p. split; [done|]. intros path Hne. unfold open_w, disk. simpl.
  by rewrite lookup_insert_ne.
Qed.

Lemma writes_only_write r s : writes_only r (f_write r s).
Proof.
  intros p. split; [done|]. intros path Hne. unfold f_write, disk. simpl.
  by rewrite lookup_insert_ne.
Qed.

Lemma writes_only_insight r title t : writes_only r (write_insight r title t).
Proof.
  unfold write_insight.
  repeat first
    [ apply writes_only_write
    | apply writes_only_keeps; solve [keeps]
    | apply writes_only_pbind; [|intros] ].
Qed.

Lemma writes_only_report r t : writes_only r (write_report r t).
Proof.
  unfold write_report.
  repeat first
    [ apply writes_only_write | apply writes_only_open
    | apply writes_only_insight
    | apply writes_only_pbind; [|intros] ].
Qed.

Lemma writes_only_analysis d r : writes_only r (analyze_big_data d r).
Proof.
  unfold analyze_big_data.
  repeat first
    [ apply writes_only_report
    | apply writes_only_keeps;
      solve [ keeps
            | apply keeps_py_insights
            | apply keeps_py_try; [apply keeps_py_load|intros; keeps] ]
    | apply writes_only_pbind; [|intros] ].
Qed.

(** X9. Whatever the engine does and however the analysis ends, it writes
    no file but the report and leaves numpy's generator alone: every other
    path, the data file included, holds afterwards what it held before. *)
Theorem analysis_writes_only_the_report
        data_filename report_filename path (p : process) :
  path <> report_filename ->
  disk (analyze_big_data data_filename report_filename p).2 !! path
  = disk p !! path
  /\ np_state (py (analyze_big_data data_filename report_filename p).2)
     = np_state (py p).
Proof.
  intros Hne.
  destruct (writes_only_analysis data_filename report_filename p) as [H1 H2].
  split; [by apply H2|exact H1].
Qed.

End AnalysisRuns.

(** ** How the analysis ends *)

Section AnalysisOutcomes.
Context `{NR : NumpyRandom} `{FR : FloatRepr} `{SE : SparkEngine}.

Definition create_session : P unit :=
  call (spark_getOrCreate "BigDataAnalysisPipeline" "spark.driver.memory"
                          SPARK_DRIVER_MEMORY).


Lemma keeps_py_session : keeps_py create_session.
Proof. apply keeps_py_call. Qed.

(** X10. When the data cannot be loaded (reading it, printing its schema,
    showing it or counting it raises an exception), the session is
    stopped and the process exits with [SystemExit]; no query is run and
    no file, the report included, is created or changed. *)
Theorem load_failure_stops_and_exits
        data_filename report_filename (p p1 p2 p3 : process) name :
  create_session p = (inr tt, p1) ->
  load_data data_filename p1 = (inl (Exception name), p2) ->
  call spark_stop p2 = (inr tt, p3) ->
  analyze_big_data data_filename report_filename p = (inl SystemExit, p3)
  /\ py p3 = py p.
Proof.
  intros H1 H2 H3. split.
  - unfold analyze_big_data. fold create_session.
    rewrite (pbind_inr _ _ _ _ _ H1).
    apply pbind_inl. unfold try_except. rewrite H2.
    by rewrite (pbind_inr _ _ _ _ _ H3).
  - pose proof (keeps_py_session p) as K1. rewrite H1 in K1.
    pose proof (keeps_py_load data_filename p1) as K2. rewrite H2 in K2.
    pose proof (keeps_py_call spark_stop p2) as K3. rewrite H3 in K3.
    simpl in *. congruence.
Qed.

(** X11. When one of the five queries, or showing its result, raises, the
    exception leaves [analyze_big_data] as it is: the session is not
    stopped (the engine is left as the failing call left it) and no file
    has been touched, so no report exists. *)
Theorem insight_failure_leaves_no_report
        data_filename report_filename (p p1 p2 p3 : process) df sig :
  create_session p = (inr tt, p1) ->
  load_data data_filename p1 = (inr df, p2) ->
  run_insights df p2 = (inl sig, p3) ->
  analyze_big_data data_filename report_filename p = (inl sig, p3)
  /\ py p3 = py p.
Proof.
  intros H1 H2 H3. split.
  - unfold analyze_big_data. fold create_session.
    rewrite (pbind_inr _ _ _ _ _ H1).
    assert (T : try_except (load_data data_filename)
                  (fun _ => pbind (call spark_stop) (fun _ => exit)) p1
                = (inr df, p2)) by (unfold try_except; by rewrite H2).
    rewrite (pbind_inr _ _ _ _ _ T). by apply pbind_inl.
  - pose proof (keeps_py_session p) as K1. rewrite H1 in K1.
    pose proof (keeps_py_load data_filename p1) as K2. rewrite H2 in K2.
    pose proof (keeps_py_insights df p2) as K3. rewrite H3 in K3.
    simpl in *. congruence.
Qed.








End AnalysisOutcomes.

(** ** The two steps together *)

Section MainRun.
Context `{NR : NumpyRandom} `{FR : FloatRepr} `{SE : SparkEngine}.



(** X15. Every column that one of the five queries reads is a column of
    the frame the generator saves, and every query is ordered by a column
    it yields itself (its grouping key or one of its aliases). *)
Theorem insights_read_generated_columns N filename (w : world) :
  0 <= N ->
  exists df,
    saved N filename w df
    /\ Forall (fun q => Forall (fun c => c ∈ columns df) (query_inputs q)
                        /\ order_column q ∈ query_outputs q)
              insights.
Proof.
  intros HN. destruct (generate_run N filename w HN) as (a & W & Sv).
  exists (assemble N a). split; [exact Sv|].
  unfold columns. cbn [assemble map fst].
  repeat constructor; apply list_elem_of_In; simpl; tauto.
Qed.

End MainRun.

(** * The further properties on concrete inputs *)

(** A disk that already holds a report, and processes over the reference
    engine: one with no data file, one whose data file lacks the columns,
    one whose data file has the generator's header. *)
Definition w_disk : world :=
  mkworld (NR := ref_numpy) 7
          (<[ANALYSIS_REPORT_FILENAME := "an earlier report"%string]> ∅).

Definition p_empty (eager : bool) : process (SE := ref_spark eager) :=
  mkprocess (SE := ref_spark eager) w_ref [].

Definition p_bad (eager : bool) : process (SE := ref_spark eager) :=
  mkprocess (SE := ref_spark eager)
            (mkworld (NR := ref_numpy) 7
               (<[DATA_FILENAME := "a,b" +:+ NL +:+ "1,2" +:+ NL]> ∅)) [].

Definition p_good (eager : bool) : process (SE := ref_spark eager) :=
  mkprocess (SE := ref_spark eager)
            (mkworld (NR := ref_numpy) 7
               (<[DATA_FILENAME := unlines [header_line]]> ∅)) [].

Lemma other_files_untouched_witness :
  files (generate_large_data 3 DATA_FILENAME w_disk).2
    !! ANALYSIS_REPORT_FILENAME
  = files w_disk !! ANALYSIS_REPORT_FILENAME.
Proof. apply other_files_untouched. discriminate. Defined.

Lemma float_cells_witness :
  exists df,
    saved 3 DATA_FILENAME w_ref df
    /\ forall i, (i < Z.to_nat 3)%nat ->
         exists p s t pr,
           float_at df "PricePerUnit" i = Some p
           /\ float_at df "ShippingCost" i = Some s
           /\ float_at df "TotalAmount" i = Some t
           /\ float_at df "Profit" i = Some pr
           /\ Forall (fun x => Float64.is_nan x = false
                               /\ render_float x = float_repr x)
                     [p; s; t; pr].
Proof. apply (float_cells_are_numbers 3). lia. Defined.

Lemma eleven_fields_witness :
  exists df,
    saved 3 DATA_FILENAME w_ref df
    /\ Forall (fun l => count_char COMMA l = 10%nat
                        /\ count_char QUOTE l = O
                        /\ count_char LF l = O)
              (csv_lines df).
Proof. apply (lines_have_eleven_fields 3). lia. Defined.

Lemma record_number_witness :
  exists df,
    saved 3 DATA_FILENAME w_ref df
    /\ (forall i, (i < Z.to_nat 3)%nat ->
          exists l, csv_lines df !! S i = Some l
                    /\ first_field l = str_of_Z (Z.of_nat i + 1))
    /\ NoDup (csv_lines df).
Proof. apply (lines_led_by_record_number 3). lia. Defined.

Lemma analysis_writes_only_witness :
  disk (analyze_big_data DATA_FILENAME ANALYSIS_REPORT_FILENAME
          (p_good true)).2 !! DATA_FILENAME
  = disk (p_good true) !! DATA_FILENAME
  /\ np_state (py (analyze_big_data DATA_FILENAME ANALYSIS_REPORT_FILENAME
                     (p_good true)).2)
     = np_state (py (p_good true)).
Proof. apply analysis_writes_only_the_report. discriminate. Defined.

Lemma load_failure_witness :
  analyze_big_data DATA_FILENAME ANALYSIS_REPORT_FILENAME (p_empty true)
  = (inl SystemExit,
     mkprocess (SE := ref_spark true) w_ref
               ["getOrCreate"; "read"; "stop"]%string)
  /\ py (mkprocess (SE := ref_spark true) w_ref
                   ["getOrCreate"; "read"; "stop"]%string)
     = py (p_empty true).
Proof.
  apply (load_failure_stops_and_exits
           (SE := ref_spark true) DATA_FILENAME ANALYSIS_REPORT_FILENAME
           (p_empty true)
           (mkprocess (SE := ref_spark true) w_ref ["getOrCreate"%string])
           (mkprocess (SE := ref_spark true) w_ref
                      ["getOrCreate"; "read"]%string)
           _ "AnalysisException"); reflexivity.
Defined.

Lemma insight_failure_witness :
  analyze_big_data DATA_FILENAME ANALYSIS_REPORT_FILENAME (p_bad true)
  = (inl (Exception "AnalysisException"),
     mkprocess (SE := ref_spark true) (py (p_bad true))
               ["getOrCreate"; "read"; "printSchema"; "show"; "count";
                "query"]%string)
  /\ py (mkprocess (SE := ref_spark true) (py (p_bad true))
                   ["getOrCreate"; "read"; "printSchema"; "show"; "count";
                    "query"]%string)
     = py (p_bad true).
Proof.
  apply (insight_failure_leaves_no_report
           (SE := ref_spark true) DATA_FILENAME ANALYSIS_REPORT_FILENAME
           (p_bad true)
           (mkprocess (SE := ref_spark true) (py (p_bad true))
                      ["getOrCreate"%string])
           (mkprocess (SE := ref_spark true) (py (p_bad true))
                      ["getOrCreate"; "read"; "printSchema"; "show";
                       "count"]%string)
           _ (["a"; "b"]%string, 1)); reflexivity.
Defined.









Lemma insights_columns_witness :
  exists df,
    saved 3 DATA_FILENAME w_ref df
    /\ Forall (fun q => Forall (fun c => c ∈ columns df) (query_inputs q)
                        /\ order_column q ∈ query_outputs q)
              insights.
Proof. apply (insights_read_generated_columns 3). lia. Defined.
